(** * Conversor: the audio conversion front end (src/Converter.jsx)

    A shallow embedding of the [convert] handler of the [Converter]
    component: the construction of the ffmpeg argument list from the three
    option strings, and the workflow around it (file check, busy flag, copy
    into the engine's storage, execution, read-back, download, failure
    handling).  The transcoding engine (@ffmpeg/ffmpeg) is an external
    library: it is a parameter of the workflow. *)

From stdpp Require Import gmap strings list fin_maps.

Open Scope string_scope.

(** ** The argument list (Converter.jsx, lines 58-90) *)

Module Args.

(** [args.push(a, b, ...)]: appends at the end of the array. *)
Definition push (args : list string) (items : list string) : list string :=
  args ++ items.

(** The block of [convert] that builds [args] and [outputFilename].  The
    three option values are the strings held in the component's state;
    [===] on strings is string equality. *)
Definition convert_args (format bitDepth sampleRate : string)
  : list string * string :=
  let args := ["-i"; "input"] in
  let args := push args ["-ar"; sampleRate] in
  let outputFilename := "output." +:+ format in
  let args :=
    if String.eqb format "wav" then
      let args :=
        if String.eqb bitDepth "16" then push args ["-c:a"; "pcm_s16le"] else args in
      let args :=
        if String.eqb bitDepth "24" then push args ["-c:a"; "pcm_s24le"] else args in
      let args :=
        if String.eqb bitDepth "32" then push args ["-c:a"; "pcm_f32le"] else args in
      args
    else if String.eqb format "flac" then
      if String.eqb bitDepth "24" || String.eqb bitDepth "32" then args else args
    else if String.eqb format "mp3" then
      push args ["-b:a"; "320k"]
    else args in
  let args := push args [outputFilename] in
  (args, outputFilename).

Definition tokens (format bitDepth sampleRate : string) : list string :=
  fst (convert_args format bitDepth sampleRate).

Definition outputFilename (format bitDepth sampleRate : string) : string :=
  snd (convert_args format bitDepth sampleRate).

(** Number of places where [flag] is immediately followed by [value]. *)
Fixpoint count_pair (flag value : string) (toks : list string) : nat :=
  match toks with
  | [] => 0
  | t :: rest =>
      (match rest with
       | u :: _ => if String.eqb t flag && String.eqb u value then 1 else 0
       | [] => 0
       end) + count_pair flag value rest
  end.

(** Number of tokens equal to [flag]. *)
Fixpoint count_flag (flag : string) (toks : list string) : nat :=
  match toks with
  | [] => 0
  | t :: rest => (if String.eqb t flag then 1 else 0) + count_flag flag rest
  end.

(** The three PCM codec ids the builder knows. *)
Definition pcm_codecs : list string := ["pcm_s16le"; "pcm_s24le"; "pcm_f32le"].

End Args.

(** ** The conversion workflow (Converter.jsx, lines 43-113) *)

Module Workflow.

Import Args.

(** The bytes of a buffer; the elements of a [Uint8Array]. *)
Abbreviation bytes := (list Byte.byte).

(** The engine's virtual storage: a flat namespace of named buffers. *)
Abbreviation FS := (gmap string (list Byte.byte)).

(** The [File] picked in the [uploader] input. *)
Record File := { name : string; content : bytes }.

(** The option strings captured by the closure of [convert]. *)
Record Options := { format : string; bitDepth : string; sampleRate : string }.

(** A [Uint8Array] as [readFile] returns it: a view of [byteLength] bytes
    at [byteOffset] of the [ArrayBuffer] [buffer]. *)
Record Uint8Array := {
  buffer : bytes;
  byteOffset : nat;
  byteLength : nat
}.

(** The array that is the whole of its buffer. *)
Definition array_of (data : bytes) : Uint8Array :=
  {| buffer := data; byteOffset := 0; byteLength := length data |}.

(** A thrown value (a rejected promise). *)
Inductive exn := Error (message : string).

Inductive Outcome (A : Type) :=
| Returned (a : A)
| Thrown (e : exn).
Arguments Returned {A} a.
Arguments Thrown {A} e.

(** What one run of [ffmpeg.exec] does: the lines it sends to the 'log'
    listeners, the storage it leaves, and its exit code or rejection. *)
Record ExecResult := {
  logs : list string;
  storage_after : FS;
  status : Outcome Z
}.

(** The external collaborators: [fetchFile] of @ffmpeg/util and the
    [FFmpeg] instance held in [ffmpegRef].  Each call may reject. *)
Record Env := {
  fetchFile : File -> Outcome bytes;
  writeFile : string -> bytes -> FS -> Outcome unit * FS;
  exec : list string -> FS -> ExecResult;
  readFile : string -> FS -> Outcome Uint8Array
}.

(** Everything the handler does that can be observed, in order. *)
Inductive Event :=
| Alert (message : string)
| SetIsLoading (b : bool)
| SetLogMessage (message : string)
| ConsoleLog (label text : string)
| ConsoleError (e : exn)
| FetchFile (f : File)
| WriteFile (path : string) (data : bytes)
| Exec (args : list string)
| ReadFile (path : string)
| Download (mime : string) (data : bytes) (filename : string).

(** The component's state ([useState]), the engine's storage and the trace
    of effects so far. *)
Record State := {
  loaded : bool;
  isLoading : bool;
  logMessage : string;
  storage : FS;
  trace : list Event
}.

Definition emit (ev : Event) (s : State) : State :=
  {| loaded := loaded s; isLoading := isLoading s; logMessage := logMessage s;
     storage := storage s; trace := trace s ++ [ev] |}.

Definition with_isLoading (b : bool) (s : State) : State :=
  {| loaded := loaded s; isLoading := b; logMessage := logMessage s;
     storage := storage s; trace := trace s |}.

Definition with_logMessage (m : string) (s : State) : State :=
  {| loaded := loaded s; isLoading := isLoading s; logMessage := m;
     storage := storage s; trace := trace s |}.

Definition with_storage (fs : FS) (s : State) : State :=
  {| loaded := loaded s; isLoading := isLoading s; logMessage := logMessage s;
     storage := fs; trace := trace s |}.

(** Computations of the handler: they transform the state and either return
    a value or throw; the state reached is kept in both cases. *)
Definition M (A : Type) : Type := State -> Outcome A * State.

#[export] Instance M_ret : MRet M := fun A a s => (Returned a, s).

#[export] Instance M_bind : MBind M := fun A B k m s =>
  match m s with
  | (Returned a, s') => k a s'
  | (Thrown e, s') => (Thrown e, s')
  end.

(** [try { body } catch (e) { handler }] *)
Definition try_catch (body : M unit) (handler : exn -> M unit) : M unit :=
  fun s =>
    match body s with
    | (Returned u, s') => (Returned u, s')
    | (Thrown e, s') => handler e s'
    end.

Definition effect (ev : Event) : M unit := fun s => (Returned tt, emit ev s).

Definition alert (message : string) : M unit := effect (Alert message).

Definition setIsLoading (b : bool) : M unit :=
  fun s => (Returned tt, with_isLoading b (emit (SetIsLoading b) s)).

Definition setLogMessage (message : string) : M unit :=
  fun s => (Returned tt, with_logMessage message (emit (SetLogMessage message) s)).

Definition console_log (label text : string) : M unit :=
  effect (ConsoleLog label text).

Definition console_error (e : exn) : M unit := effect (ConsoleError e).

(** The 'log' listener registered by [load] (line 22): every line the
    engine emits is mirrored into [logMessage]. *)
Fixpoint on_log (lines : list string) : M unit :=
  match lines with
  | [] => mret tt
  | message :: rest => setLogMessage message;; on_log rest
  end.

Definition lift_outcome {A} (r : Outcome A) : M A := fun s => (r, s).

Definition call_fetchFile (env : Env) (f : File) : M bytes :=
  effect (FetchFile f);; lift_outcome (fetchFile env f).

Definition call_writeFile (env : Env) (path : string) (data : bytes) : M unit :=
  effect (WriteFile path data);;
  ((fun s => let '(r, fs) := writeFile env path data (storage s) in
             (r, with_storage fs s)) : M unit).

Definition call_exec (env : Env) (args : list string) : M Z :=
  effect (Exec args);;
  ((fun s => let r := exec env args (storage s) in
             match on_log (logs r) (with_storage (storage_after r) s) with
             | (_, s') => (status r, s')
             end) : M Z).

Definition call_readFile (env : Env) (path : string) : M Uint8Array :=
  effect (ReadFile path);;
  ((fun s => (readFile env path (storage s), s)) : M Uint8Array).

(** [new Blob([buffer], {type})], the anchor with [download] set, and its
    [click()]; [data] is what the Blob is made of. *)
Definition download (mime : string) (data : bytes) (filename : string) : M unit :=
  effect (Download mime data filename).

(** [args.join(' ')] *)
Definition join (sep : string) (args : list string) : string :=
  String.concat sep args.

Definition failure_message : string := "Error durante la conversión.".

(** The handler.  [file] is [fileInput.files[0]]: [None] when nothing is
    selected. *)
Definition convert (env : Env) (o : Options) (file : option File) : M unit :=
  match file with
  | None => alert "Por favor selecciona un archivo primero."
  | Some file =>
      setIsLoading true;;
      data ← call_fetchFile env file;
      call_writeFile env "input" data;;
      let '(args, outputFilename) :=
        convert_args (format o) (bitDepth o) (sampleRate o) in
      console_log "Ejecutando comando:" (join " " args);;
      try_catch
        (call_exec env args;;
         data ← call_readFile env outputFilename;
         download ("audio/" +:+ format o) (buffer data)
           ("convertido_" +:+ sampleRate o +:+ "Hz_" +:+ bitDepth o
              +:+ "bit." +:+ format o))
        (fun e => console_error e;; setLogMessage failure_message);;
      setIsLoading false
  end.

(** The state after a run and how the run ended. *)
Definition final (env : Env) (o : Options) (file : option File) (s : State) : State :=
  snd (convert env o file s).

Definition result (env : Env) (o : Options) (file : option File) (s : State)
  : Outcome unit :=
  fst (convert env o file s).

(** The events a run adds to the trace. *)
Definition events (env : Env) (o : Options) (file : option File) (s : State)
  : list Event :=
  drop (length (trace s)) (trace (final env o file s)).

Definition is_download (ev : Event) : bool :=
  match ev with Download _ _ _ => true | _ => false end.

Definition is_exec (ev : Event) : bool :=
  match ev with Exec _ => true | _ => false end.

Definition is_engine_call (ev : Event) : bool :=
  match ev with
  | WriteFile _ _ | Exec _ | ReadFile _ => true
  | _ => false
  end.

Definition is_state_update (ev : Event) : bool :=
  match ev with
  | SetIsLoading _ | SetLogMessage _ => true
  | _ => false
  end.

(** *** Engines used to run the workflow on concrete inputs *)

Definition memfs_write (path : string) (data : bytes) (fs : FS)
  : Outcome unit * FS :=
  (Returned tt, <[path := data]> fs).

Definition memfs_read (path : string) (fs : FS) : Outcome Uint8Array :=
  match fs !! path with
  | Some data => Returned (array_of data)
  | None => Thrown (Error "ErrnoError: FS error")
  end.

(** An engine whose run copies the input buffer to the file named by the
    last argument. *)
Definition engine_ok : Env := {|
  fetchFile f := Returned (content f);
  writeFile := memfs_write;
  exec args fs :=
    {| logs := ["size=       1kB time=00:00:00.00"];
       storage_after :=
         match fs !! "input", last args with
         | Some data, Some out => <[out := data]> fs
         | _, _ => fs
         end;
       status := Returned 0%Z |};
  readFile := memfs_read
|}.

(** An engine whose run rejects and leaves the storage as it found it. *)
Definition engine_exec_fails : Env := {|
  fetchFile f := Returned (content f);
  writeFile := memfs_write;
  exec args fs :=
    {| logs := ["Conversion failed!"];
       storage_after := fs;
       status := Thrown (Error "exec failed") |};
  readFile := memfs_read
|}.

(** An engine that rejects the copy of the input into its storage. *)
Definition engine_write_fails : Env := {|
  fetchFile f := Returned (content f);
  writeFile path data fs := (Thrown (Error "ffmpeg is not loaded"), fs);
  exec args fs :=
    {| logs := []; storage_after := fs; status := Returned 0%Z |};
  readFile := memfs_read
|}.

(** An environment in which the picked file can no longer be read. *)
Definition engine_fetch_fails : Env := {|
  fetchFile f := Thrown (Error "NotFoundError");
  writeFile := memfs_write;
  exec args fs :=
    {| logs := []; storage_after := fs; status := Returned 0%Z |};
  readFile := memfs_read
|}.

Definition initial_state : State := {|
  loaded := true;
  isLoading := false;
  logMessage := "Listo para convertir";
  storage := ∅;
  trace := []
|}.

Definition sample_file : File :=
  {| name := "song.ogg"; content := [Byte.x4f; Byte.x67; Byte.x67; Byte.x53] |}.

Definition default_options : Options :=
  {| format := "wav"; bitDepth := "16"; sampleRate := "44100" |}.

Definition mp3_options : Options :=
  {| format := "mp3"; bitDepth := "24"; sampleRate := "48000" |}.

End Workflow.

(** ** The component around the handler (Converter.jsx, lines 5-41 and
    115-211): the state cells, [load], and what is rendered *)

Module Component.

Import Args Workflow.

(** What one run of [ffmpeg.load] does: the lines it sends to the 'log'
    listeners and its result or rejection. *)
Record LoadResult := {
  load_logs : list string;
  load_status : Outcome bool
}.

(** The collaborators of [load]: [toBlobURL] of @ffmpeg/util and
    [ffmpeg.load]. *)
Record Loader := {
  toBlobURL : string -> string -> Outcome string;
  ffmpeg_load : string -> string -> LoadResult
}.

(** What [load] does that can be observed, in order. *)
Inductive LoadEvent :=
| LSetIsLoading (b : bool)
| LOn (event : string)
| LToBlobURL (url mime : string)
| LLoad (coreURL wasmURL : string)
| LSetLoaded (b : bool)
| LSetLogMessage (message : string)
| LConsoleError (label : string) (e : exn).

(** The mounted component: the cells [loaded], [isLoading], [logMessage]
    (with the engine's storage and the trace of [convert]) in [cells], the
    cells [format], [bitDepth], [sampleRate] in [opts], the selection of the
    [uploader] input, the number of 'log' listeners on the [FFmpeg]
    instance, and the trace of [load]. *)
Record Page := {
  cells : State;
  opts : Options;
  picked : option File;
  listeners : nat;
  load_trace : list LoadEvent
}.

Definition with_cells (c : State) (p : Page) : Page :=
  {| cells := c; opts := opts p; picked := picked p;
     listeners := listeners p; load_trace := load_trace p |}.

Definition with_opts (o : Options) (p : Page) : Page :=
  {| cells := cells p; opts := o; picked := picked p;
     listeners := listeners p; load_trace := load_trace p |}.

Definition with_picked (f : option File) (p : Page) : Page :=
  {| cells := cells p; opts := opts p; picked := f;
     listeners := listeners p; load_trace := load_trace p |}.

Definition with_listeners (n : nat) (p : Page) : Page :=
  {| cells := cells p; opts := opts p; picked := picked p;
     listeners := n; load_trace := load_trace p |}.

Definition record (ev : LoadEvent) (p : Page) : Page :=
  {| cells := cells p; opts := opts p; picked := picked p;
     listeners := listeners p; load_trace := load_trace p ++ [ev] |}.

Definition with_loaded (b : bool) (s : State) : State :=
  {| loaded := b; isLoading := isLoading s; logMessage := logMessage s;
     storage := storage s; trace := trace s |}.

(** Computations of [load] over the page. *)
Definition P (A : Type) : Type := Page -> Outcome A * Page.

#[export] Instance P_ret : MRet P := fun A a p => (Returned a, p).

#[export] Instance P_bind : MBind P := fun A B k m p =>
  match m p with
  | (Returned a, p') => k a p'
  | (Thrown e, p') => (Thrown e, p')
  end.

Definition try_catch_page (body : P unit) (handler : exn -> P unit) : P unit :=
  fun p =>
    match body p with
    | (Returned u, p') => (Returned u, p')
    | (Thrown e, p') => handler e p'
    end.

Definition set_isLoading (b : bool) : P unit :=
  fun p => (Returned tt,
            with_cells (with_isLoading b (cells p)) (record (LSetIsLoading b) p)).

Definition set_loaded (b : bool) : P unit :=
  fun p => (Returned tt,
            with_cells (with_loaded b (cells p)) (record (LSetLoaded b) p)).

Definition set_logMessage (message : string) : P unit :=
  fun p => (Returned tt,
            with_cells (with_logMessage message (cells p))
              (record (LSetLogMessage message) p)).

Definition page_console_error (label : string) (e : exn) : P unit :=
  fun p => (Returned tt, record (LConsoleError label e) p).

(** [ffmpeg.on('log', ({ message }) => { setLogMessage(message); })]: one
    more listener; nothing removes one. *)
Definition on (event : string) : P unit :=
  fun p => (Returned tt, with_listeners (S (listeners p)) (record (LOn event) p)).

(** One line of the engine's log: every registered listener runs. *)
Fixpoint notify (n : nat) (message : string) : P unit :=
  match n with
  | O => mret tt
  | S n' => set_logMessage message;; notify n' message
  end.

Fixpoint notify_all (n : nat) (lines : list string) : P unit :=
  match lines with
  | [] => mret tt
  | message :: rest => notify n message;; notify_all n rest
  end.

Definition call_toBlobURL (ld : Loader) (url mime : string) : P string :=
  ((fun p => (toBlobURL ld url mime, record (LToBlobURL url mime) p)) : P string).

Definition call_load (ld : Loader) (coreURL wasmURL : string) : P bool :=
  ((fun p =>
      let r := ffmpeg_load ld coreURL wasmURL in
      match notify_all (listeners p) (load_logs r)
              (record (LLoad coreURL wasmURL) p) with
      | (_, p') => (load_status r, p')
      end) : P bool).

Definition baseURL : string := "https://unpkg.com/@ffmpeg/core@0.12.6/dist/umd".

Definition load_failure_message : string :=
  "Error al cargar el motor de audio. Revisa la consola.".

(** [load] (lines 17-37). *)
Definition load (ld : Loader) : P unit :=
  set_isLoading true;;
  on "log";;
  try_catch_page
    (coreURL ← call_toBlobURL ld (baseURL +:+ "/ffmpeg-core.js") "text/javascript";
     wasmURL ← call_toBlobURL ld (baseURL +:+ "/ffmpeg-core.wasm") "application/wasm";
     call_load ld coreURL wasmURL;;
     set_loaded true)
    (fun error =>
       page_console_error "Error cargando FFmpeg" error;;
       set_logMessage load_failure_message);;
  set_isLoading false.

(** The component before its first effect: the initial values of the six
    [useState] cells, a fresh [FFmpeg] instance, nothing picked. *)
Definition first_render : Page := {|
  cells := {| loaded := false; isLoading := false;
              logMessage := "Listo para convertir";
              storage := ∅; trace := [] |};
  opts := {| format := "wav"; bitDepth := "16"; sampleRate := "44100" |};
  picked := None;
  listeners := 0;
  load_trace := []
|}.

(** [useEffect(() => { load(); }, [])]: [load] runs once, after the first
    render; its promise is dropped. *)
Definition mount (ld : Loader) : Page := snd (load ld first_render).

(** *** What is rendered (lines 115-211) *)

(** A [select]: its [value] and its [option]s (value, label). *)
Record Select := {
  value : string;
  choices : list (string * string)
}.

(** The block shown for the lossless formats: the selector and the note
    under it. *)
Record BitDepthControl := {
  selector : Select;
  hint : string
}.

Record Form := {
  uploader_accept : string;
  format_select : Select;
  sampleRate_select : Select;
  bitDepth_control : option BitDepthControl;
  button_disabled : bool;
  button_label : string;
  log_marker : bool;
  log_text : string
}.

Inductive View :=
| Placeholder (text : string)
| Shown (form : Form).

Definition render (p : Page) : View :=
  let s := cells p in
  let o := opts p in
  if negb (loaded s) then Placeholder "Cargando motor de procesamiento..."
  else Shown {|
    uploader_accept := "audio/*,video/*";
    format_select :=
      {| value := format o;
         choices := [("wav", "WAV (Sin pérdida)");
                     ("flac", "FLAC (Comprimido sin pérdida)");
                     ("mp3", "MP3 (Universal)")] |};
    sampleRate_select :=
      {| value := sampleRate o;
         choices := [("44100", "44.1 kHz (CD)");
                     ("48000", "48.0 kHz (Video/Cine)")] |};
    bitDepth_control :=
      if negb (String.eqb (format o) "mp3") then
        Some {| selector :=
                  {| value := bitDepth o;
                     choices := [("16", "16-bit (Estándar)");
                                 ("24", "24-bit (Alta Definición)");
                                 ("32", "32-bit (Punto Flotante - Máxima Calidad)")] |};
                hint :=
                  if String.eqb (format o) "flac" && String.eqb (bitDepth o) "32"
                  then "Nota: FLAC 32-bit es experimental, algunos reproductores podrían no abrirlo."
                  else "Selecciona 32-bit para edición profesional en DAWs." |}
      else None;
    button_disabled := isLoading s;
    button_label :=
      if isLoading s then "Procesando Audio..." else "Convertir Audio";
    log_marker := isLoading s;
    log_text := logMessage s
  |}.

(** *** What the user can do with what is rendered *)

Inductive Action :=
| SelectFormat (v : string)
| SelectSampleRate (v : string)
| SelectBitDepth (v : string)
| PickFile (f : option File)
| ClickConvert.

(** [e.target.value] of a [select] is the value of one of its options. *)
Definition offers (sel : Select) (v : string) : bool :=
  existsb (String.eqb v) (map fst (choices sel)).

Definition setFormat (v : string) (p : Page) : Page :=
  with_opts {| format := v; bitDepth := bitDepth (opts p);
               sampleRate := sampleRate (opts p) |} p.

Definition setSampleRate (v : string) (p : Page) : Page :=
  with_opts {| format := format (opts p); bitDepth := bitDepth (opts p);
               sampleRate := v |} p.

Definition setBitDepth (v : string) (p : Page) : Page :=
  with_opts {| format := format (opts p); bitDepth := v;
               sampleRate := sampleRate (opts p) |} p.

(** [onClick={convert}]: the handler runs with the option values of this
    render; a rejection of its promise is dropped, the state it reached
    stays. *)
Definition click_convert (env : Env) (p : Page) : Page :=
  with_cells (snd (convert env (opts p) (picked p) (cells p))) p.

(** One user action on the page; [None] when the control is not rendered,
    is disabled, or does not offer the value. *)
Definition dispatch (env : Env) (a : Action) (p : Page) : option Page :=
  match render p with
  | Placeholder _ => None
  | Shown form =>
      match a with
      | SelectFormat v =>
          if offers (format_select form) v then Some (setFormat v p) else None
      | SelectSampleRate v =>
          if offers (sampleRate_select form) v then Some (setSampleRate v p)
          else None
      | SelectBitDepth v =>
          match bitDepth_control form with
          | Some c => if offers (selector c) v then Some (setBitDepth v p) else None
          | None => None
          end
      | PickFile f => Some (with_picked f p)
      | ClickConvert =>
          if button_disabled form then None else Some (click_convert env p)
      end
  end.

Fixpoint run (env : Env) (actions : list Action) (p : Page) : option Page :=
  match actions with
  | [] => Some p
  | a :: rest =>
      match dispatch env a p with
      | Some p' => run env rest p'
      | None => None
      end
  end.

(** The option values the three selectors offer. *)
Definition offered_options (o : Options) : Prop :=
  In (format o) ["wav"; "flac"; "mp3"]
  /\ In (bitDepth o) ["16"; "24"; "32"]
  /\ In (sampleRate o) ["44100"; "48000"].

(** The trace [n] listeners leave for the lines of a log. *)
Definition mirrored (n : nat) (lines : list string) : list LoadEvent :=
  flat_map (fun message => replicate n (LSetLogMessage message)) lines.

(** *** Collaborators used to run the component on concrete inputs *)

(** Both assets are fetched and the engine starts. *)
Definition loader_ok : Loader := {|
  toBlobURL url mime := Returned ("blob:" +:+ url);
  ffmpeg_load coreURL wasmURL :=
    {| load_logs := ["ffmpeg version 5.1.4"]; load_status := Returned true |}
|}.

(** No network: the first asset cannot be fetched. *)
Definition loader_offline : Loader := {|
  toBlobURL url mime := Thrown (Error "TypeError: Failed to fetch");
  ffmpeg_load coreURL wasmURL :=
    {| load_logs := []; load_status := Returned true |}
|}.

(** The assets are fetched but the engine does not start. *)
Definition loader_bad_core : Loader := {|
  toBlobURL url mime := Returned ("blob:" +:+ url);
  ffmpeg_load coreURL wasmURL :=
    {| load_logs := ["Aborted()"];
       load_status := Thrown (Error "failed to import ffmpeg-core.js") |}
|}.

(** An engine whose run resolves with a non-zero exit code and writes no
    output. *)
Definition engine_no_output : Env := {|
  fetchFile f := Returned (content f);
  writeFile := memfs_write;
  exec args fs :=
    {| logs := ["Conversion failed!"];
       storage_after := fs;
       status := Returned 1%Z |};
  readFile := memfs_read
|}.

(** An engine whose [readFile] returns a view into a larger buffer: the
    bytes of the file preceded by two other bytes. *)
Definition engine_view : Env := {|
  fetchFile f := Returned (content f);
  writeFile := memfs_write;
  exec args fs :=
    {| logs := [];
       storage_after :=
         match fs !! "input", last args with
         | Some data, Some out => <[out := data]> fs
         | _, _ => fs
         end;
       status := Returned 0%Z |};
  readFile path fs :=
    match fs !! path with
    | Some data =>
        Returned {| buffer := [Byte.xff; Byte.xff] ++ data;
                    byteOffset := 2;
                    byteLength := length data |}
    | None => Thrown (Error "ErrnoError: FS error")
    end
|}.

End Component.
Import Args Workflow.

(** * Properties of the argument list *)

Section ArgsFacts.

Implicit Types format bitDepth sampleRate : string.

(** Comparisons against a variable string are split by cases; the rest is
    computation on literals. *)
Ltac split_eqb :=
  cbv -[String.eqb];
  repeat match goal with
         | |- context [String.eqb ?x ?y] => is_var x; destruct (String.eqb x y)
         end;
  try reflexivity.

(** None of the three PCM codec pairs occurs in a literal token list. *)
Ltac no_pcm_pair :=
  unfold pcm_codecs;
  repeat (apply List.Forall_cons; [split_eqb |]); apply List.Forall_nil.

Lemma eqb_false (a b : string) : a <> b -> String.eqb a b = false.
Proof. intros H. now apply String.eqb_neq. Qed.

Lemma tokens_wav_16 sampleRate :
  tokens "wav" "16" sampleRate =
  ["-i"; "input"; "-ar"; sampleRate; "-c:a"; "pcm_s16le"; "output.wav"].
Proof. reflexivity. Qed.

Lemma tokens_wav_24 sampleRate :
  tokens "wav" "24" sampleRate =
  ["-i"; "input"; "-ar"; sampleRate; "-c:a"; "pcm_s24le"; "output.wav"].
Proof. reflexivity. Qed.

Lemma tokens_wav_32 sampleRate :
  tokens "wav" "32" sampleRate =
  ["-i"; "input"; "-ar"; sampleRate; "-c:a"; "pcm_f32le"; "output.wav"].
Proof. reflexivity. Qed.

Lemma tokens_wav_other bitDepth sampleRate :
  bitDepth <> "16" -> bitDepth <> "24" -> bitDepth <> "32" ->
  tokens "wav" bitDepth sampleRate =
  ["-i"; "input"; "-ar"; sampleRate; "output.wav"].
Proof.
  intros H16 H24 H32. unfold tokens, convert_args, push.
  rewrite (eqb_false _ _ H16), (eqb_false _ _ H24), (eqb_false _ _ H32).
  reflexivity.
Qed.

Lemma tokens_flac bitDepth sampleRate :
  tokens "flac" bitDepth sampleRate =
  ["-i"; "input"; "-ar"; sampleRate; "output.flac"].
Proof.
  unfold tokens, convert_args, push.
  change (String.eqb "flac" "wav") with false.
  change (String.eqb "flac" "flac") with true.
  cbv iota. now destruct (String.eqb bitDepth "24" || String.eqb bitDepth "32").
Qed.

Lemma tokens_mp3 bitDepth sampleRate :
  tokens "mp3" bitDepth sampleRate =
  ["-i"; "input"; "-ar"; sampleRate; "-b:a"; "320k"; "output.mp3"].
Proof. reflexivity. Qed.

Lemma convert_args_unknown format bitDepth sampleRate :
  format <> "wav" -> format <> "flac" -> format <> "mp3" ->
  convert_args format bitDepth sampleRate =
  (["-i"; "input"; "-ar"; sampleRate; "output." +:+ format],
   "output." +:+ format).
Proof.
  intros Hw Hf Hm. unfold convert_args, push.
  rewrite (eqb_false _ _ Hw), (eqb_false _ _ Hf), (eqb_false _ _ Hm).
  reflexivity.
Qed.

(** The shape shared by every argument list: the input pair, the
    sample-rate pair, the directives of the format, the output name. *)
Lemma tokens_shape format bitDepth sampleRate :
  exists directives : list string,
    tokens format bitDepth sampleRate =
    (["-i"; "input"; "-ar"; sampleRate] ++ directives
       ++ ["output." +:+ format])%list.
Proof.
  unfold tokens, convert_args, push.
  destruct (String.eqb format "wav").
  - exists ((if String.eqb bitDepth "16" then ["-c:a"; "pcm_s16le"] else [])
            ++ (if String.eqb bitDepth "24" then ["-c:a"; "pcm_s24le"] else [])
            ++ (if String.eqb bitDepth "32" then ["-c:a"; "pcm_f32le"] else []))%list.
    now destruct (String.eqb bitDepth "16"), (String.eqb bitDepth "24"),
      (String.eqb bitDepth "32").
  - destruct (String.eqb format "flac").
    + exists []. now destruct (String.eqb bitDepth "24" || String.eqb bitDepth "32").
    + destruct (String.eqb format "mp3").
      * now exists ["-b:a"; "320k"].
      * now exists [].
Qed.

Lemma outputFilename_eq format bitDepth sampleRate :
  outputFilename format bitDepth sampleRate = "output." +:+ format.
Proof. reflexivity. Qed.

Lemma count_flag_base sampleRate (out : string) :
  String.eqb out "-c:a" = false ->
  count_flag "-c:a" ["-i"; "input"; "-ar"; sampleRate; out] =
  count_flag "-c:a" [sampleRate].
Proof.
  intros Hout. cbv -[String.eqb]. rewrite Hout.
  now destruct (String.eqb sampleRate "-c:a").
Qed.

(** C1: for wav, bitDepth '16', '24' and '32' put the pair
    ('-c:a','pcm_s16le'), ('-c:a','pcm_s24le'), ('-c:a','pcm_f32le') into
    the token sequence exactly once (and neither of the other two codec
    pairs); for any other bitDepth the sequence is the input pair, the
    sample-rate pair and the output name, with no codec pair inserted. *)
Theorem wav_codec_by_bitDepth bitDepth sampleRate :
  let toks := tokens "wav" bitDepth sampleRate in
  (bitDepth = "16" ->
     toks = ["-i"; "input"; "-ar"; sampleRate; "-c:a"; "pcm_s16le"; "output.wav"]
     /\ count_pair "-c:a" "pcm_s16le" toks = 1
     /\ count_pair "-c:a" "pcm_s24le" toks = 0
     /\ count_pair "-c:a" "pcm_f32le" toks = 0)
  /\ (bitDepth = "24" ->
     toks = ["-i"; "input"; "-ar"; sampleRate; "-c:a"; "pcm_s24le"; "output.wav"]
     /\ count_pair "-c:a" "pcm_s24le" toks = 1
     /\ count_pair "-c:a" "pcm_s16le" toks = 0
     /\ count_pair "-c:a" "pcm_f32le" toks = 0)
  /\ (bitDepth = "32" ->
     toks = ["-i"; "input"; "-ar"; sampleRate; "-c:a"; "pcm_f32le"; "output.wav"]
     /\ count_pair "-c:a" "pcm_f32le" toks = 1
     /\ count_pair "-c:a" "pcm_s16le" toks = 0
     /\ count_pair "-c:a" "pcm_s24le" toks = 0)
  /\ (bitDepth <> "16" -> bitDepth <> "24" -> bitDepth <> "32" ->
     toks = ["-i"; "input"; "-ar"; sampleRate; "output.wav"]
     /\ count_flag "-c:a" toks = count_flag "-c:a" [sampleRate]
     /\ Forall (fun codec => count_pair "-c:a" codec toks = 0) pcm_codecs).
Proof.
  cbv zeta. split; [| split; [| split]].
  - intros ->. rewrite tokens_wav_16. repeat split; split_eqb.
  - intros ->. rewrite tokens_wav_24. repeat split; split_eqb.
  - intros ->. rewrite tokens_wav_32. repeat split; split_eqb.
  - intros H16 H24 H32. rewrite tokens_wav_other by assumption.
    split; [reflexivity | split].
    + now apply count_flag_base.
    + no_pcm_pair.
Qed.

(** The four cases of C1 at 44100 Hz: bitDepth '16', '24', '32' and '8'. *)
Lemma wav_codec_by_bitDepth_witness :
  (count_pair "-c:a" "pcm_s16le" (tokens "wav" "16" "44100") = 1
   /\ count_pair "-c:a" "pcm_s24le" (tokens "wav" "24" "44100") = 1
   /\ count_pair "-c:a" "pcm_f32le" (tokens "wav" "32" "44100") = 1)
  /\ tokens "wav" "8" "44100" = ["-i"; "input"; "-ar"; "44100"; "output.wav"].
Proof.
  pose proof (wav_codec_by_bitDepth "16" "44100") as (H16 & _).
  pose proof (wav_codec_by_bitDepth "24" "44100") as (_ & H24 & _).
  pose proof (wav_codec_by_bitDepth "32" "44100") as (_ & _ & H32 & _).
  pose proof (wav_codec_by_bitDepth "8" "44100") as (_ & _ & _ & H8).
  split; [split; [| split] |].
  - exact (proj1 (proj2 (H16 eq_refl))).
  - exact (proj1 (proj2 (H24 eq_refl))).
  - exact (proj1 (proj2 (H32 eq_refl))).
  - apply H8; discriminate.
Defined.

(** C2: for mp3 the token sequence is the input pair, the sample-rate pair,
    the bitrate pair ('-b:a','320k') and the output name, whatever bitDepth
    is: the bitrate pair occurs (once), the builder adds no '-c:a' token
    (the only token that can spell '-c:a' is the sample-rate value passed
    through), and two bitDepth values give the same result. *)
Theorem mp3_bitrate_only bitDepth bitDepth' sampleRate :
  let toks := tokens "mp3" bitDepth sampleRate in
  toks = ["-i"; "input"; "-ar"; sampleRate; "-b:a"; "320k"; "output.mp3"]
  /\ count_pair "-b:a" "320k" toks = 1
  /\ count_flag "-c:a" toks = count_flag "-c:a" [sampleRate]
  /\ (sampleRate <> "-c:a" -> count_flag "-c:a" toks = 0)
  /\ (Forall (fun codec => count_pair "-c:a" codec toks = 0) pcm_codecs)
  /\ convert_args "mp3" bitDepth sampleRate =
     convert_args "mp3" bitDepth' sampleRate.
Proof.
  cbv zeta. rewrite tokens_mp3.
  split; [reflexivity |]. split; [| split; [| split; [| split]]].
  - split_eqb.
  - split_eqb.
  - intros Hne. apply eqb_false in Hne. cbv -[String.eqb]. now rewrite Hne.
  - no_pcm_pair.
  - reflexivity.
Qed.

(** C2 at bitDepth '24' against '16', 48000 Hz. *)
Lemma mp3_bitrate_only_witness :
  count_flag "-c:a" (tokens "mp3" "24" "48000") = 0.
Proof.
  apply (proj1 (proj2 (proj2 (proj2 (mp3_bitrate_only "24" "16" "48000"))))).
  discriminate.
Defined.

(** C3: for flac and every bitDepth the tokens are exactly the input pair,
    the sample-rate pair and the output filename; no codec pair is there. *)
Theorem flac_no_codec bitDepth sampleRate :
  let toks := tokens "flac" bitDepth sampleRate in
  toks = ["-i"; "input"; "-ar"; sampleRate; "output.flac"]
  /\ count_flag "-c:a" toks = count_flag "-c:a" [sampleRate]
  /\ Forall (fun codec => count_pair "-c:a" codec toks = 0) pcm_codecs.
Proof.
  cbv zeta. rewrite tokens_flac. split; [reflexivity | split].
  - now apply count_flag_base.
  - no_pcm_pair.
Qed.

(** C4: every token sequence begins with ('-i','input'), carries
    ('-ar', sampleRate) with the string unchanged, and ends with
    'output.' followed by the format, which is the output filename. *)
Theorem tokens_frame format bitDepth sampleRate :
  let toks := tokens format bitDepth sampleRate in
  toks !! 0 = Some "-i" /\ toks !! 1 = Some "input"
  /\ toks !! 2 = Some "-ar" /\ toks !! 3 = Some sampleRate
  /\ last toks = Some ("output." +:+ format)
  /\ outputFilename format bitDepth sampleRate = "output." +:+ format
  /\ last toks = Some (outputFilename format bitDepth sampleRate).
Proof.
  cbv zeta. rewrite outputFilename_eq.
  destruct (tokens_shape format bitDepth sampleRate) as [directives ->].
  assert (last (["-i"; "input"; "-ar"; sampleRate] ++ directives
                  ++ ["output." +:+ format]) = Some ("output." +:+ format))
    as Hlast by (rewrite app_assoc; apply last_snoc).
  repeat (split; [reflexivity |]). split; [exact Hlast |].
  split; [reflexivity | exact Hlast].
Qed.

(** C5: the builder returns for all option values; for a format other than
    wav, flac and mp3 the result is the input pair, the sample-rate pair and
    'output.<format>', with neither codec nor bitrate directive. *)
Theorem unknown_format_omits_directive format bitDepth sampleRate :
  (exists toks out, convert_args format bitDepth sampleRate = (toks, out))
  /\ (format <> "wav" -> format <> "flac" -> format <> "mp3" ->
      convert_args format bitDepth sampleRate =
      (["-i"; "input"; "-ar"; sampleRate; "output." +:+ format],
       "output." +:+ format)).
Proof.
  split.
  - destruct (convert_args format bitDepth sampleRate) as [toks out]. eauto.
  - apply convert_args_unknown.
Qed.

(** C5 at format 'ogg' with an empty bitDepth. *)
Lemma unknown_format_omits_directive_witness :
  convert_args "ogg" "" "44100" =
  (["-i"; "input"; "-ar"; "44100"; "output.ogg"], "output.ogg").
Proof.
  apply (proj2 (unknown_format_omits_directive "ogg" "" "44100")); discriminate.
Defined.

End ArgsFacts.

(** * Properties of the workflow *)

Section WorkflowFacts.

Variable env : Env.
Variable o : Options.

Implicit Types (s : State) (f : File).

(** The 'log' listener never throws and touches only [logMessage]. *)
Lemma on_log_run (lines : list string) s :
  exists s',
    on_log lines s = (Returned tt, s')
    /\ loaded s' = loaded s /\ isLoading s' = isLoading s
    /\ storage s' = storage s
    /\ trace s' = (trace s ++ map SetLogMessage lines)%list
    /\ logMessage s' = default (logMessage s) (last lines).
Proof.
  revert s. induction lines as [| m rest IH]; intros s.
  - exists s. cbn. now rewrite app_nil_r.
  - destruct (IH (with_logMessage m (emit (SetLogMessage m) s)))
      as (s' & Hrun & Hl & Hb & Hfs & Htr & Hmsg).
    exists s'. split; [exact Hrun |].
    rewrite Hl, Hb, Hfs, Htr, Hmsg, last_cons. cbn.
    rewrite <- app_assoc.
    repeat (split; [reflexivity |]).
    now destruct (last rest).
Qed.

Lemma convert_args_pair :
  convert_args (format o) (bitDepth o) (sampleRate o) =
  (tokens (format o) (bitDepth o) (sampleRate o), "output." +:+ format o).
Proof. reflexivity. Qed.

(** A run with a file selected whose copy into the storage succeeds: the
    state [s2] in which [exec] has ended, and how the run goes on from it. *)
Lemma convert_from_exec f s data fs1 :
  fetchFile env f = Returned data ->
  writeFile env "input" data (storage s) = (Returned tt, fs1) ->
  let args := tokens (format o) (bitDepth o) (sampleRate o) in
  let out := "output." +:+ format o in
  let r := exec env args fs1 in
  let fail e s' :=
    with_isLoading false (emit (SetIsLoading false)
      (with_logMessage failure_message (emit (SetLogMessage failure_message)
        (emit (ConsoleError e) s')))) in
  exists s2,
    loaded s2 = loaded s /\ isLoading s2 = true
    /\ storage s2 = storage_after r
    /\ logMessage s2 = default (logMessage s) (last (logs r))
    /\ trace s2 =
       (trace s ++ [SetIsLoading true; FetchFile f; WriteFile "input" data;
                   ConsoleLog "Ejecutando comando:" (join " " args); Exec args]
          ++ map SetLogMessage (logs r))%list
    /\ convert env o (Some f) s =
       match status r with
       | Thrown e => (Returned tt, fail e s2)
       | Returned _ =>
           match readFile env out (storage_after r) with
           | Thrown e => (Returned tt, fail e (emit (ReadFile out) s2))
           | Returned result =>
               (Returned tt,
                with_isLoading false (emit (SetIsLoading false)
                  (emit (Download ("audio/" +:+ format o) (buffer result)
                           ("convertido_" +:+ sampleRate o +:+ "Hz_"
                              +:+ bitDepth o +:+ "bit." +:+ format o))
                     (emit (ReadFile out) s2))))
           end
       end.
Proof.
  intros Hfetch Hwrite args out r fail.
  unfold convert. rewrite convert_args_pair. fold args out.
  unfold mbind, M_bind, call_fetchFile, call_writeFile, call_exec, call_readFile,
    try_catch, setIsLoading, console_log, console_error, download, effect,
    lift_outcome, mbind, M_bind.
  cbn [storage with_isLoading emit with_storage]. rewrite Hfetch.
  cbn [storage with_isLoading emit with_storage]. rewrite Hwrite.
  cbn [storage with_isLoading emit with_storage]. fold r.
  match goal with
  | |- context [on_log (logs r) ?s0] =>
      destruct (on_log_run (logs r) s0) as (s2 & Hrun & Hl & Hb & Hfs & Htr & Hmsg)
  end.
  cbn [loaded isLoading storage trace logMessage with_isLoading emit
         with_storage] in Hl, Hb, Hfs, Htr, Hmsg.
  exists s2. rewrite Hrun, Hfs.
  do 4 (split; [first [assumption | reflexivity] |]).
  split; [rewrite Htr, <- !app_assoc; reflexivity |].
  destruct (status r); [destruct (readFile env out (storage_after r)) |];
    reflexivity.
Qed.

Lemma events_of (file : option File) s (evs : list Event) :
  trace (final env o file s) = (trace s ++ evs)%list ->
  events env o file s = evs.
Proof. unfold events. intros ->. apply drop_app_length. Qed.

Lemma filter_logs (p : Event -> bool) (lines : list string) :
  (forall m, p (SetLogMessage m) = false) ->
  List.filter p (map SetLogMessage lines) = [].
Proof.
  intros Hp. induction lines as [| m rest IH]; [reflexivity |].
  cbn. now rewrite Hp.
Qed.

(** A run with no file selected. *)
Lemma convert_no_file s :
  convert env o None s =
  (Returned tt, emit (Alert "Por favor selecciona un archivo primero.") s).
Proof. reflexivity. Qed.

(** A run whose read of the picked file rejects. *)
Lemma convert_fetch_rejects f s e :
  fetchFile env f = Thrown e ->
  convert env o (Some f) s =
  (Thrown e, emit (FetchFile f) (with_isLoading true (emit (SetIsLoading true) s))).
Proof.
  intros Hfetch. unfold convert.
  unfold mbind, M_bind, call_fetchFile, setIsLoading, effect, lift_outcome,
    mbind, M_bind.
  now rewrite Hfetch.
Qed.

(** A run whose write into the engine's storage rejects. *)
Lemma convert_write_rejects f s data e fs1 :
  fetchFile env f = Returned data ->
  writeFile env "input" data (storage s) = (Thrown e, fs1) ->
  convert env o (Some f) s =
  (Thrown e,
   with_storage fs1
     (emit (WriteFile "input" data)
        (emit (FetchFile f) (with_isLoading true (emit (SetIsLoading true) s))))).
Proof.
  intros Hfetch Hwrite. unfold convert.
  unfold mbind, M_bind, call_fetchFile, call_writeFile, setIsLoading, effect,
    lift_outcome, mbind, M_bind.
  rewrite Hfetch. cbn [storage with_isLoading emit]. now rewrite Hwrite.
Qed.

(** When the copy rejects, the run rejects with the busy flag still raised. *)
Lemma copy_failure_leaves_busy f s e :
  fetchFile env f = Thrown e
  \/ (exists data fs1, fetchFile env f = Returned data
        /\ writeFile env "input" data (storage s) = (Thrown e, fs1)) ->
  result env o (Some f) s = Thrown e
  /\ isLoading (final env o (Some f) s) = true.
Proof.
  unfold result, final. intros [Hfetch | (data & fs1 & Hfetch & Hwrite)].
  - now rewrite (convert_fetch_rejects _ _ _ Hfetch).
  - now rewrite (convert_write_rejects _ _ _ _ _ Hfetch Hwrite).
Qed.

(** Once the copy has succeeded, the run returns with the flag lowered,
    and the flag was raised before anything else. *)
Lemma busy_flag_cleared_after_copy f s data fs1 :
  fetchFile env f = Returned data ->
  writeFile env "input" data (storage s) = (Returned tt, fs1) ->
  result env o (Some f) s = Returned tt
  /\ isLoading (final env o (Some f) s) = false
  /\ head (events env o (Some f) s) = Some (SetIsLoading true).
Proof.
  intros Hfetch Hwrite.
  destruct (convert_from_exec f s data fs1 Hfetch Hwrite)
    as (s2 & _ & _ & _ & _ & Htr & Hrun).
  unfold result, events, final. rewrite Hrun.
  destruct (status _); [destruct (readFile _ _ _) |];
    cbn [fst snd isLoading trace with_isLoading with_logMessage emit];
    (do 2 (split; [reflexivity |]));
    rewrite Htr, <- !app_assoc, drop_app_length; reflexivity.
Qed.

(** C6: when [exec] rejects, the rejection is caught: the handler returns
    normally, the log message is the fixed failure message, the busy flag
    is down, nothing is downloaded, [exec] was called once, the only engine
    calls are the write of the input and that [exec] (no clean-up, no
    read-back), and the storage is as the failed run left it. *)
Theorem exec_failure_is_caught f s data fs1 e :
  fetchFile env f = Returned data ->
  writeFile env "input" data (storage s) = (Returned tt, fs1) ->
  status (exec env (tokens (format o) (bitDepth o) (sampleRate o)) fs1)
    = Thrown e ->
  let args := tokens (format o) (bitDepth o) (sampleRate o) in
  let r := exec env args fs1 in
  let s' := final env o (Some f) s in
  let evs := events env o (Some f) s in
  result env o (Some f) s = Returned tt
  /\ logMessage s' = "Error durante la conversión."
  /\ isLoading s' = false
  /\ storage s' = storage_after r
  /\ evs = ([SetIsLoading true; FetchFile f; WriteFile "input" data;
             ConsoleLog "Ejecutando comando:" (join " " args); Exec args]
            ++ map SetLogMessage (logs r)
            ++ [ConsoleError e; SetLogMessage "Error durante la conversión.";
                SetIsLoading false])%list
  /\ List.filter is_download evs = []
  /\ List.filter is_exec evs = [Exec args]
  /\ List.filter is_engine_call evs = [WriteFile "input" data; Exec args].
Proof.
  intros Hfetch Hwrite Hexec args r s' evs.
  destruct (convert_from_exec f s data fs1 Hfetch Hwrite)
    as (s2 & _ & _ & Hfs & _ & Htr & Hrun).
  fold args r in Hexec, Hfs, Htr, Hrun. rewrite Hexec in Hrun.
  assert (evs = ([SetIsLoading true; FetchFile f; WriteFile "input" data;
             ConsoleLog "Ejecutando comando:" (join " " args); Exec args]
            ++ map SetLogMessage (logs r)
            ++ [ConsoleError e; SetLogMessage "Error durante la conversión.";
                SetIsLoading false])%list) as Hevs.
  { apply events_of. unfold final. rewrite Hrun. cbn. rewrite Htr.
    now rewrite <- !app_assoc. }
  unfold s', result, final. rewrite Hrun. cbn [fst snd].
  do 4 (split; [first [reflexivity | exact Hfs] |]).
  split; [exact Hevs |]. rewrite Hevs.
  rewrite !List.filter_app, !filter_logs by reflexivity.
  now repeat split.
Qed.

(** C9: when the run succeeds, exactly one download is offered: its MIME
    type is 'audio/<format>' and its name is
    'convertido_<sampleRate>Hz_<bitDepth>bit.<format>', built from the
    option strings as they are, for every format. *)
Theorem success_offers_download f s data fs1 code output :
  fetchFile env f = Returned data ->
  writeFile env "input" data (storage s) = (Returned tt, fs1) ->
  status (exec env (tokens (format o) (bitDepth o) (sampleRate o)) fs1)
    = Returned code ->
  readFile env ("output." +:+ format o)
    (storage_after (exec env (tokens (format o) (bitDepth o) (sampleRate o)) fs1))
    = Returned output ->
  let evs := events env o (Some f) s in
  result env o (Some f) s = Returned tt
  /\ List.filter is_download evs =
     [Download ("audio/" +:+ format o) (buffer output)
        ("convertido_" +:+ sampleRate o +:+ "Hz_" +:+ bitDepth o
           +:+ "bit." +:+ format o)]
  /\ last evs = Some (SetIsLoading false).
Proof.
  intros Hfetch Hwrite Hexec Hread evs.
  destruct (convert_from_exec f s data fs1 Hfetch Hwrite)
    as (s2 & _ & _ & _ & _ & Htr & Hrun).
  rewrite Hexec, Hread in Hrun.
  unfold result. rewrite Hrun. split; [reflexivity |].
  assert (evs =
    ([SetIsLoading true; FetchFile f; WriteFile "input" data;
      ConsoleLog "Ejecutando comando:"
        (join " " (tokens (format o) (bitDepth o) (sampleRate o)));
      Exec (tokens (format o) (bitDepth o) (sampleRate o))]
     ++ map SetLogMessage
          (logs (exec env (tokens (format o) (bitDepth o) (sampleRate o)) fs1))
     ++ [ReadFile ("output." +:+ format o);
         Download ("audio/" +:+ format o) (buffer output)
           ("convertido_" +:+ sampleRate o +:+ "Hz_" +:+ bitDepth o
              +:+ "bit." +:+ format o);
         SetIsLoading false])%list) as ->.
  { apply events_of. unfold final. rewrite Hrun. cbn. rewrite Htr.
    now rewrite <- !app_assoc. }
  split.
  - rewrite !List.filter_app, filter_logs by reflexivity. reflexivity.
  - rewrite !last_app. reflexivity.
Qed.

(** C7: with no file selected the handler alerts and returns: the alert
    is the only event, so there is no write to the storage, no [exec] and
    no download, and the storage is what it was. *)
Theorem no_file_no_engine s :
  let evs := events env o None s in
  result env o None s = Returned tt
  /\ evs = [Alert "Por favor selecciona un archivo primero."]
  /\ List.filter is_engine_call evs = []
  /\ List.filter is_download evs = []
  /\ storage (final env o None s) = storage s.
Proof.
  cbv zeta. rewrite (events_of None s [Alert "Por favor selecciona un archivo primero."])
    by reflexivity.
  now repeat split.
Qed.

(** C10: with no file selected no state is touched: [isLoading],
    [logMessage] and [loaded] keep their values, no setter is called (the
    busy flag is not raised, even for a moment), and the trace grows by the
    alert alone. *)
Theorem no_file_no_state_change s :
  let s' := final env o None s in
  isLoading s' = isLoading s
  /\ logMessage s' = logMessage s
  /\ loaded s' = loaded s
  /\ List.filter is_state_update (events env o None s) = []
  /\ trace s' = (trace s ++ [Alert "Por favor selecciona un archivo primero."])%list.
Proof.
  cbv zeta. rewrite (events_of None s [Alert "Por favor selecciona un archivo primero."])
    by reflexivity.
  now repeat split.
Qed.

End WorkflowFacts.

(** C9 on the working engine, for mp3 with bitDepth '24' held in the
    state. *)
Lemma success_offers_download_witness :
  List.filter is_download
    (events engine_ok mp3_options (Some sample_file) initial_state) =
  [Download "audio/mp3" (content sample_file) "convertido_48000Hz_24bit.mp3"].
Proof.
  destruct (success_offers_download engine_ok mp3_options sample_file
              initial_state (content sample_file)
              (<["input" := content sample_file]> ∅) 0%Z
              (array_of (content sample_file)))
    as (_ & Hdl & _).
  - reflexivity.
  - reflexivity.
  - reflexivity.
  - vm_compute. reflexivity.
  - exact Hdl.
Defined.

(** C8 fails on the code: when the read of the picked file, or the write
    into the engine's storage, rejects, the handler rejects and [isLoading]
    stays [true]. *)
Theorem busy_flag_stuck_when_copy_fails :
  (result engine_fetch_fails default_options (Some sample_file) initial_state
     = Thrown (Error "NotFoundError")
   /\ isLoading (final engine_fetch_fails default_options (Some sample_file)
                   initial_state) = true
   /\ events engine_fetch_fails default_options (Some sample_file)
        initial_state = [SetIsLoading true; FetchFile sample_file])
  /\ (result engine_write_fails default_options (Some sample_file) initial_state
        = Thrown (Error "ffmpeg is not loaded")
      /\ isLoading (final engine_write_fails default_options (Some sample_file)
                      initial_state) = true
      /\ events engine_write_fails default_options (Some sample_file)
           initial_state =
         [SetIsLoading true; FetchFile sample_file;
          WriteFile "input" (content sample_file)]).
Proof. repeat split. Qed.

(** C6 on the engine whose [exec] rejects: the input written before the
    run is still in the storage afterwards. *)
Lemma exec_failure_is_caught_witness :
  let s' := final engine_exec_fails default_options (Some sample_file)
              initial_state in
  result engine_exec_fails default_options (Some sample_file) initial_state
    = Returned tt
  /\ logMessage s' = "Error durante la conversión."
  /\ isLoading s' = false
  /\ storage s' !! "input" = Some (content sample_file).
Proof.
  destruct (exec_failure_is_caught engine_exec_fails default_options
              sample_file initial_state
              (content sample_file) (<["input" := content sample_file]> ∅)
              (Error "exec failed"))
    as (Hres & Hmsg & Hbusy & Hfs & _).
  - reflexivity.
  - reflexivity.
  - reflexivity.
  - cbv zeta. rewrite Hfs. repeat (split; [assumption |]).
    apply lookup_insert_eq.
Defined.


(** * More on the handler: every environment *)

Lemma tokens_ends (format bitDepth sampleRate : string) :
  tokens format bitDepth sampleRate !! 1 = Some "input"
  /\ last (tokens format bitDepth sampleRate) = Some ("output." +:+ format).
Proof.
  destruct (tokens_shape format bitDepth sampleRate) as [directives ->].
  split; [reflexivity |]. rewrite app_assoc. apply last_snoc.
Qed.

Lemma Forall_logs (P : Event -> Prop) (lines : list string) :
  (forall m, P (SetLogMessage m)) -> Forall P (map SetLogMessage lines).
Proof. intros HP. induction lines; constructor; auto. Qed.

Section ClickFacts.

Variable env : Env.
Variable o : Options.

Implicit Types (s : State) (f : File) (file : option File).

(** The trace of one run, for any behaviour of the collaborators. *)
Lemma final_cases file s :
  exists evs : list Event,
    loaded (final env o file s) = loaded s
    /\ trace (final env o file s) = (trace s ++ evs)%list
    /\ evs =
       match file with
       | None => [Alert "Por favor selecciona un archivo primero."]
       | Some f =>
           [SetIsLoading true; FetchFile f] ++
           match fetchFile env f with
           | Thrown _ => []
           | Returned data =>
               WriteFile "input" data ::
               match writeFile env "input" data (storage s) with
               | (Thrown _, _) => []
               | (Returned _, fs1) =>
                   let args := tokens (format o) (bitDepth o) (sampleRate o) in
                   let out := "output." +:+ format o in
                   let r := exec env args fs1 in
                   [ConsoleLog "Ejecutando comando:" (join " " args); Exec args]
                   ++ map SetLogMessage (logs r)
                   ++ match status r with
                      | Thrown e =>
                          [ConsoleError e; SetLogMessage failure_message;
                           SetIsLoading false]
                      | Returned _ =>
                          ReadFile out ::
                          match readFile env out (storage_after r) with
                          | Thrown e =>
                              [ConsoleError e; SetLogMessage failure_message;
                               SetIsLoading false]
                          | Returned data' =>
                              [Download ("audio/" +:+ format o) (buffer data')
                                 ("convertido_" +:+ sampleRate o +:+ "Hz_"
                                    +:+ bitDepth o +:+ "bit." +:+ format o);
                               SetIsLoading false]
                          end
                      end
               end
           end
       end%list.
Proof.
  eexists. split; [| split; [| reflexivity]].
  - destruct file as [f |]; [| reflexivity].
    destruct (fetchFile env f) as [data | e] eqn:Hfetch.
    2: { unfold final. now rewrite (convert_fetch_rejects env o f s e Hfetch). }
    destruct (writeFile env "input" data (storage s)) as [[[] | e] fs1] eqn:Hwrite.
    2: { unfold final.
         now rewrite (convert_write_rejects env o f s data e fs1 Hfetch Hwrite). }
    destruct (convert_from_exec env o f s data fs1 Hfetch Hwrite)
      as (s2 & Hl & _ & _ & _ & _ & Hrun).
    unfold final. rewrite Hrun.
    destruct (status _); [destruct (readFile _ _ _) |]; exact Hl.
  - destruct file as [f |]; [| reflexivity].
    destruct (fetchFile env f) as [data | e] eqn:Hfetch.
    2: { unfold final. rewrite (convert_fetch_rejects env o f s e Hfetch). cbn.
         now rewrite <- !app_assoc. }
    destruct (writeFile env "input" data (storage s)) as [[[] | e] fs1] eqn:Hwrite.
    2: { unfold final.
         rewrite (convert_write_rejects env o f s data e fs1 Hfetch Hwrite). cbn.
         now rewrite <- !app_assoc. }
    destruct (convert_from_exec env o f s data fs1 Hfetch Hwrite)
      as (s2 & _ & _ & _ & _ & Htr & Hrun).
    unfold final. rewrite Hrun. cbv zeta.
    destruct (status _); [destruct (readFile _ _ _) |]; cbn;
      rewrite Htr, <- !app_assoc; reflexivity.
Qed.

(** The events of one run, for any behaviour of the collaborators. *)
Lemma events_cases file s :
  events env o file s =
  match file with
  | None => [Alert "Por favor selecciona un archivo primero."]
  | Some f =>
      [SetIsLoading true; FetchFile f] ++
      match fetchFile env f with
      | Thrown _ => []
      | Returned data =>
          WriteFile "input" data ::
          match writeFile env "input" data (storage s) with
          | (Thrown _, _) => []
          | (Returned _, fs1) =>
              let args := tokens (format o) (bitDepth o) (sampleRate o) in
              let out := "output." +:+ format o in
              let r := exec env args fs1 in
              [ConsoleLog "Ejecutando comando:" (join " " args); Exec args]
              ++ map SetLogMessage (logs r)
              ++ match status r with
                 | Thrown e =>
                     [ConsoleError e; SetLogMessage failure_message;
                      SetIsLoading false]
                 | Returned _ =>
                     ReadFile out ::
                     match readFile env out (storage_after r) with
                     | Thrown e =>
                         [ConsoleError e; SetLogMessage failure_message;
                          SetIsLoading false]
                     | Returned data' =>
                         [Download ("audio/" +:+ format o) (buffer data')
                            ("convertido_" +:+ sampleRate o +:+ "Hz_"
                               +:+ bitDepth o +:+ "bit." +:+ format o);
                          SetIsLoading false]
                     end
                 end
          end
      end
  end%list.
Proof.
  destruct (final_cases file s) as (evs & _ & Htr & ->).
  now apply events_of.
Qed.

(** Splits a goal about the events of a run into the six ways a run can
    go. *)
Ltac run_cases file s :=
  rewrite (events_cases file s);
  destruct file as [? |];
    [ destruct (fetchFile env _) as [? | ?] eqn:?;
        [ destruct (writeFile env "input" _ (storage s)) as [[[] | ?] ?] eqn:?;
            [ cbv zeta;
              destruct (status _) as [? | ?] eqn:?;
                [ destruct (readFile env _ _) as [? | ?] eqn:? | ]
            | ]
        | ]
    | ].

(** X1: A run never changes [loaded], and keeps what was in the trace: it only
    appends its own events. *)
Theorem convert_keeps_loaded_and_history file s :
  loaded (final env o file s) = loaded s
  /\ trace (final env o file s) = (trace s ++ events env o file s)%list.
Proof.
  destruct (final_cases file s) as (evs & Hl & Htr & _).
  split; [exact Hl |]. now rewrite (events_of env o file s evs Htr).
Qed.

(** X2: One run calls [exec] at most once, offers at most one download and
    reads back at most one file, whatever the collaborators do. *)
Theorem at_most_one_exec_and_download file s :
  let evs := events env o file s in
  length (List.filter is_exec evs) <= 1
  /\ length (List.filter is_download evs) <= 1
  /\ length (List.filter is_engine_call evs) <= 3.
Proof.
  cbv zeta. run_cases file s; cbn;
    rewrite ?List.filter_app, ?filter_logs by reflexivity; cbn; lia.
Qed.

(** X3: Every storage name a run uses agrees with the command it passes to the
    engine: the name written is the token after '-i', the name read back is
    the last token, and the command is the one built from the options. *)
Theorem storage_names_agree_with_command file s :
  let args := tokens (format o) (bitDepth o) (sampleRate o) in
  Forall (fun ev =>
            match ev with
            | WriteFile path _ => args !! 1 = Some path
            | Exec args' => args' = args
            | ReadFile path => last args = Some path
            | _ => True
            end) (events env o file s).
Proof.
  cbv zeta.
  destruct (tokens_ends (format o) (bitDepth o) (sampleRate o)) as [H1 Hlast].
  run_cases file s;
    repeat first [ apply Forall_nil_2 | apply Forall_cons_2
                 | apply Forall_app_2 | apply Forall_logs ];
    auto.
Qed.

(** X4: A download is offered only when everything before it succeeded: a file
    was picked, its copy into the storage, the run and the read-back all
    returned; what is offered is the buffer of the array read back (the
    whole [ArrayBuffer], also when the array is a view of a part of it). *)
Theorem download_only_on_success file s :
  List.filter is_download (events env o file s) <> [] ->
  exists f data fs1 code output,
    file = Some f
    /\ fetchFile env f = Returned data
    /\ writeFile env "input" data (storage s) = (Returned tt, fs1)
    /\ status (exec env (tokens (format o) (bitDepth o) (sampleRate o)) fs1)
       = Returned code
    /\ readFile env ("output." +:+ format o)
         (storage_after
            (exec env (tokens (format o) (bitDepth o) (sampleRate o)) fs1))
       = Returned output
    /\ List.filter is_download (events env o file s) =
       [Download ("audio/" +:+ format o) (buffer output)
          ("convertido_" +:+ sampleRate o +:+ "Hz_" +:+ bitDepth o
             +:+ "bit." +:+ format o)].
Proof.
  run_cases file s; cbn;
    rewrite ?List.filter_app, ?filter_logs by reflexivity; cbn;
    intros Hdl; try (now destruct Hdl).
  repeat eexists; eauto.
Qed.

(** X5: [exec] is called only after the input was written: a run that reaches
    the engine starts by raising the busy flag, reading the picked file and
    writing it under 'input', and only then logs and runs the command. *)
Theorem exec_only_after_write file s :
  List.filter is_exec (events env o file s) <> [] ->
  exists f data fs1 rest,
    file = Some f
    /\ fetchFile env f = Returned data
    /\ writeFile env "input" data (storage s) = (Returned tt, fs1)
    /\ events env o file s =
       ([SetIsLoading true; FetchFile f; WriteFile "input" data;
         ConsoleLog "Ejecutando comando:"
           (join " " (tokens (format o) (bitDepth o) (sampleRate o)));
         Exec (tokens (format o) (bitDepth o) (sampleRate o))] ++ rest)%list.
Proof.
  run_cases file s; cbn;
    rewrite ?List.filter_app, ?filter_logs by reflexivity; cbn;
    intros Hex; try (now destruct Hex);
    repeat eexists; eauto.
Qed.

(** X6: When [exec] resolves (with any exit code) but the output cannot be
    read back, the rejection of [readFile] is caught like one of [exec]:
    the handler returns, shows the fixed failure message, lowers the busy
    flag and offers no download. *)
Theorem read_failure_is_caught f s data fs1 code e :
  fetchFile env f = Returned data ->
  writeFile env "input" data (storage s) = (Returned tt, fs1) ->
  status (exec env (tokens (format o) (bitDepth o) (sampleRate o)) fs1)
    = Returned code ->
  readFile env ("output." +:+ format o)
    (storage_after (exec env (tokens (format o) (bitDepth o) (sampleRate o)) fs1))
    = Thrown e ->
  let s' := final env o (Some f) s in
  let evs := events env o (Some f) s in
  result env o (Some f) s = Returned tt
  /\ logMessage s' = "Error durante la conversión."
  /\ isLoading s' = false
  /\ List.filter is_download evs = []
  /\ List.filter is_engine_call evs =
     [WriteFile "input" data;
      Exec (tokens (format o) (bitDepth o) (sampleRate o));
      ReadFile ("output." +:+ format o)]
  /\ exists before,
       evs = (before ++ [ConsoleError e;
                         SetLogMessage "Error durante la conversión.";
                         SetIsLoading false])%list.
Proof.
  intros Hfetch Hwrite Hexec Hread s' evs.
  destruct (convert_from_exec env o f s data fs1 Hfetch Hwrite)
    as (s2 & _ & _ & _ & _ & _ & Hrun).
  rewrite Hexec, Hread in Hrun.
  unfold s', result, final. rewrite Hrun. cbn [fst snd].
  do 3 (split; [reflexivity |]).
  unfold evs. rewrite (events_cases (Some f) s), Hfetch, Hwrite. cbv zeta.
  rewrite Hexec, Hread. cbn.
  rewrite ?List.filter_app, ?filter_logs by reflexivity. cbn.
  do 2 (split; [reflexivity |]).
  eexists (_ :: _ :: _ :: _ :: _ :: _ ++ [_])%list.
  cbn. rewrite <- app_assoc. reflexivity.
Qed.

(** X7: On success the handler does not write [logMessage] itself: the message
    left is the last line the engine logged during the run, or the one
    shown before when the engine logged nothing. *)
Theorem success_keeps_engine_log f s data fs1 code output :
  fetchFile env f = Returned data ->
  writeFile env "input" data (storage s) = (Returned tt, fs1) ->
  status (exec env (tokens (format o) (bitDepth o) (sampleRate o)) fs1)
    = Returned code ->
  readFile env ("output." +:+ format o)
    (storage_after (exec env (tokens (format o) (bitDepth o) (sampleRate o)) fs1))
    = Returned output ->
  logMessage (final env o (Some f) s) =
  default (logMessage s)
    (last (logs (exec env (tokens (format o) (bitDepth o) (sampleRate o)) fs1))).
Proof.
  intros Hfetch Hwrite Hexec Hread.
  destruct (convert_from_exec env o f s data fs1 Hfetch Hwrite)
    as (s2 & _ & _ & _ & Hmsg & _ & Hrun).
  rewrite Hexec, Hread in Hrun.
  unfold final. rewrite Hrun. exact Hmsg.
Qed.

(** X8: When the copy of the picked file rejects (the read of the file or the
    write into the storage), the handler rejects with that error: the only
    state update it made is the raising of the busy flag, which stays
    raised; [logMessage] is unchanged, the engine is not run and nothing is
    offered for download. *)
Theorem copy_rejection_propagates f s e :
  fetchFile env f = Thrown e
  \/ (exists data fs1, fetchFile env f = Returned data
        /\ writeFile env "input" data (storage s) = (Thrown e, fs1)) ->
  let s' := final env o (Some f) s in
  let evs := events env o (Some f) s in
  result env o (Some f) s = Thrown e
  /\ isLoading s' = true
  /\ logMessage s' = logMessage s
  /\ List.filter is_state_update evs = [SetIsLoading true]
  /\ List.filter is_exec evs = []
  /\ List.filter is_download evs = [].
Proof.
  intros Hcopy s' evs. unfold s', evs, result, final.
  rewrite (events_cases (Some f) s).
  destruct Hcopy as [Hfetch | (data & fs1 & Hfetch & Hwrite)].
  - rewrite (convert_fetch_rejects env o f s e Hfetch), Hfetch. now cbn.
  - rewrite (convert_write_rejects env o f s data e fs1 Hfetch Hwrite),
      Hfetch, Hwrite. now cbn.
Qed.

(** X9: Once the picked file is in the storage the busy flag brackets the rest
    of the run on every path: the handler returns normally, raising the
    flag is its first event and lowering it the last, and these are its
    only two updates of the flag. *)
Theorem busy_bracket_after_copy f s data fs1 :
  fetchFile env f = Returned data ->
  writeFile env "input" data (storage s) = (Returned tt, fs1) ->
  let evs := events env o (Some f) s in
  result env o (Some f) s = Returned tt
  /\ isLoading (final env o (Some f) s) = false
  /\ head evs = Some (SetIsLoading true)
  /\ last evs = Some (SetIsLoading false)
  /\ List.filter (fun ev => match ev with SetIsLoading _ => true | _ => false end)
       evs = [SetIsLoading true; SetIsLoading false].
Proof.
  intros Hfetch Hwrite evs.
  destruct (convert_from_exec env o f s data fs1 Hfetch Hwrite)
    as (s2 & _ & _ & _ & _ & _ & Hrun).
  unfold evs, result, final. rewrite Hrun.
  rewrite (events_cases (Some f) s), Hfetch, Hwrite. cbv zeta.
  destruct (status _); [destruct (readFile _ _ _) |];
    (do 3 (split; [reflexivity |]));
    (split;
     [ cbn; repeat first [rewrite last_cons | rewrite last_app]; reflexivity
     | cbn; rewrite ?List.filter_app, ?filter_logs by reflexivity; reflexivity ]).
Qed.

End ClickFacts.

(** * Properties of [load] *)

Import Component.

Section LoadFacts.

Variable ld : Loader.

Implicit Types (p : Page).

(** One line, [n] listeners: only [logMessage] and the trace of [load]
    change. *)
Lemma notify_run (n : nat) (m : string) p :
  exists p',
    notify n m p = (Returned tt, p')
    /\ opts p' = opts p /\ picked p' = picked p /\ listeners p' = listeners p
    /\ loaded (cells p') = loaded (cells p)
    /\ isLoading (cells p') = isLoading (cells p)
    /\ storage (cells p') = storage (cells p)
    /\ trace (cells p') = trace (cells p)
    /\ load_trace p' = (load_trace p ++ replicate n (LSetLogMessage m))%list
    /\ logMessage (cells p') =
       match n with O => logMessage (cells p) | S _ => m end.
Proof.
  revert p. induction n as [| n IH]; intros p.
  - exists p. cbn. now rewrite app_nil_r.
  - destruct (IH (with_cells (with_logMessage m (cells p))
                    (record (LSetLogMessage m) p)))
      as (p' & Hrun & Ho & Hp & Hn & Hl & Hb & Hfs & Htr & Hlt & Hmsg).
    exists p'. split; [exact Hrun |].
    rewrite Ho, Hp, Hn, Hl, Hb, Hfs, Htr, Hlt, Hmsg. cbn.
    rewrite <- app_assoc.
    repeat (split; [reflexivity |]). now destruct n.
Qed.

Lemma notify_all_run (n : nat) (lines : list string) p :
  exists p',
    notify_all n lines p = (Returned tt, p')
    /\ opts p' = opts p /\ picked p' = picked p /\ listeners p' = listeners p
    /\ loaded (cells p') = loaded (cells p)
    /\ isLoading (cells p') = isLoading (cells p)
    /\ storage (cells p') = storage (cells p)
    /\ trace (cells p') = trace (cells p)
    /\ load_trace p' = (load_trace p ++ mirrored n lines)%list
    /\ logMessage (cells p') =
       match n with
       | O => logMessage (cells p)
       | S _ => default (logMessage (cells p)) (last lines)
       end.
Proof.
  revert p. induction lines as [| m rest IH]; intros p.
  - exists p. cbn. rewrite app_nil_r. now destruct n.
  - destruct (notify_run n m p)
      as (p1 & Hrun1 & Ho1 & Hp1 & Hn1 & Hl1 & Hb1 & Hfs1 & Htr1 & Hlt1 & Hmsg1).
    destruct (IH p1)
      as (p' & Hrun & Ho & Hp & Hn & Hl & Hb & Hfs & Htr & Hlt & Hmsg).
    exists p'. split.
    { cbn [notify_all]. unfold mbind, P_bind. now rewrite Hrun1. }
    rewrite Ho, Hp, Hn, Hl, Hb, Hfs, Htr, Hlt, Hmsg.
    rewrite Ho1, Hp1, Hn1, Hl1, Hb1, Hfs1, Htr1, Hlt1, Hmsg1.
    unfold mirrored. cbn [flat_map]. rewrite <- app_assoc.
    repeat (split; [reflexivity |]).
    destruct n; [reflexivity |]. rewrite last_cons. now destruct (last rest).
Qed.

(** What [load] does, for any behaviour of its collaborators. *)
Lemma load_cases p :
  let core_url := baseURL +:+ "/ffmpeg-core.js" in
  let wasm_url := baseURL +:+ "/ffmpeg-core.wasm" in
  let failed e :=
    [LConsoleError "Error cargando FFmpeg" e;
     LSetLogMessage load_failure_message; LSetIsLoading false] in
  exists p',
    load ld p = (Returned tt, p')
    /\ opts p' = opts p /\ picked p' = picked p
    /\ listeners p' = S (listeners p)
    /\ isLoading (cells p') = false
    /\ storage (cells p') = storage (cells p)
    /\ trace (cells p') = trace (cells p)
    /\ match toBlobURL ld core_url "text/javascript" with
       | Thrown e =>
           loaded (cells p') = loaded (cells p)
           /\ logMessage (cells p') = load_failure_message
           /\ load_trace p' =
              (load_trace p
                 ++ [LSetIsLoading true; LOn "log";
                     LToBlobURL core_url "text/javascript"]
                 ++ failed e)%list
       | Returned core =>
           match toBlobURL ld wasm_url "application/wasm" with
           | Thrown e =>
               loaded (cells p') = loaded (cells p)
               /\ logMessage (cells p') = load_failure_message
               /\ load_trace p' =
                  (load_trace p
                     ++ [LSetIsLoading true; LOn "log";
                         LToBlobURL core_url "text/javascript";
                         LToBlobURL wasm_url "application/wasm"]
                     ++ failed e)%list
           | Returned wasm =>
               let r := ffmpeg_load ld core wasm in
               match load_status r with
               | Thrown e =>
                   loaded (cells p') = loaded (cells p)
                   /\ logMessage (cells p') = load_failure_message
                   /\ load_trace p' =
                      (load_trace p
                         ++ [LSetIsLoading true; LOn "log";
                             LToBlobURL core_url "text/javascript";
                             LToBlobURL wasm_url "application/wasm";
                             LLoad core wasm]
                         ++ mirrored (S (listeners p)) (load_logs r)
                         ++ failed e)%list
               | Returned _ =>
                   loaded (cells p') = true
                   /\ logMessage (cells p') =
                      default (logMessage (cells p)) (last (load_logs r))
                   /\ load_trace p' =
                      (load_trace p
                         ++ [LSetIsLoading true; LOn "log";
                             LToBlobURL core_url "text/javascript";
                             LToBlobURL wasm_url "application/wasm";
                             LLoad core wasm]
                         ++ mirrored (S (listeners p)) (load_logs r)
                         ++ [LSetLoaded true; LSetIsLoading false])%list
               end
           end
       end.
Proof.
  intros core_url wasm_url failed. unfold load.
  unfold mbind, P_bind, try_catch_page, set_isLoading, on, call_toBlobURL,
    call_load, set_loaded, page_console_error, set_logMessage, mbind, P_bind.
  cbn [cells opts picked listeners load_trace with_cells record with_listeners].
  fold core_url wasm_url.
  destruct (toBlobURL ld core_url "text/javascript") as [core | e].
  2: { eexists. split; [reflexivity |]. cbn. rewrite <- !app_assoc.
       now repeat split. }
  destruct (toBlobURL ld wasm_url "application/wasm") as [wasm | e].
  2: { eexists. split; [reflexivity |]. cbn. rewrite <- !app_assoc.
       now repeat split. }
  cbv zeta.
  match goal with
  | |- context [notify_all ?n ?lines ?p0] =>
      destruct (notify_all_run n lines p0)
        as (p1 & Hrun & Ho & Hp & Hn & Hl & Hb & Hfs & Htr & Hlt & Hmsg)
  end.
  cbn [cells opts picked listeners load_trace with_cells record with_listeners
         loaded isLoading logMessage storage trace with_isLoading] in *.
  rewrite Hrun.
  destruct (load_status (ffmpeg_load ld core wasm)) as [first | e];
    eexists; (split; [reflexivity |]); cbn;
    rewrite ?Ho, ?Hp, ?Hn, ?Hl, ?Hb, ?Hfs, ?Htr, ?Hlt, ?Hmsg, <- ?app_assoc;
    now repeat split.
Qed.

(** X10: [load] never rejects and never leaves the busy flag raised: whatever
    the fetches and the engine do, it returns with [isLoading] false, one
    more 'log' listener registered, and the options, the picked file, the
    storage and the trace of [convert] untouched. *)
Theorem load_always_settles p :
  let p' := snd (load ld p) in
  fst (load ld p) = Returned tt
  /\ isLoading (cells p') = false
  /\ listeners p' = S (listeners p)
  /\ opts p' = opts p /\ picked p' = picked p
  /\ storage (cells p') = storage (cells p)
  /\ trace (cells p') = trace (cells p).
Proof.
  destruct (load_cases p) as (p' & -> & Ho & Hp & Hn & Hb & Hfs & Htr & _).
  cbn. auto 10.
Qed.

(** X11: [loaded] becomes true exactly when both assets were fetched and the
    engine started (or it was true before): a failure of any of the three
    steps leaves it as it was. *)
Theorem load_sets_loaded_iff p :
  loaded (cells (snd (load ld p))) = true <->
  loaded (cells p) = true
  \/ exists core wasm first,
       toBlobURL ld (baseURL +:+ "/ffmpeg-core.js") "text/javascript"
         = Returned core
       /\ toBlobURL ld (baseURL +:+ "/ffmpeg-core.wasm") "application/wasm"
          = Returned wasm
       /\ load_status (ffmpeg_load ld core wasm) = Returned first.
Proof.
  destruct (load_cases p) as (p' & -> & _ & _ & _ & _ & _ & _ & Hcase).
  cbn [snd]. cbv zeta in Hcase.
  destruct (toBlobURL ld (baseURL +:+ "/ffmpeg-core.js") "text/javascript")
    as [core | e].
  2: { destruct Hcase as (-> & _). split; [auto |].
       intros [H | (? & ? & ? & H & _)]; [exact H | discriminate]. }
  destruct (toBlobURL ld (baseURL +:+ "/ffmpeg-core.wasm") "application/wasm")
    as [wasm | e].
  2: { destruct Hcase as (-> & _). split; [auto |].
       intros [H | (? & ? & ? & _ & H & _)]; [exact H | discriminate]. }
  destruct (load_status (ffmpeg_load ld core wasm)) as [first | e] eqn:Hst.
  - destruct Hcase as (-> & _). split; [| reflexivity].
    intros _. right. now exists core, wasm, first.
  - destruct Hcase as (-> & _). split; [auto |].
    intros [H | (c & w & f & Hc & Hw & H)]; [exact H |].
    injection Hc as <-. injection Hw as <-. rewrite Hst in H. discriminate.
Qed.

(** X12: When [load] ends with the engine not loaded, the failure was caught:
    the error went to the console, [logMessage] is the fixed load-failure
    message, and these, with the lowering of the busy flag, are the last
    things [load] did. *)
Theorem load_failure_reported p :
  loaded (cells (snd (load ld p))) = false ->
  logMessage (cells (snd (load ld p)))
    = "Error al cargar el motor de audio. Revisa la consola."
  /\ exists before e,
       load_trace (snd (load ld p)) =
       (before ++ [LConsoleError "Error cargando FFmpeg" e;
                   LSetLogMessage
                     "Error al cargar el motor de audio. Revisa la consola.";
                   LSetIsLoading false])%list.
Proof.
  destruct (load_cases p) as (p' & -> & _ & _ & _ & _ & _ & _ & Hcase).
  cbn [snd]. cbv zeta in Hcase. intros Hno.
  destruct (toBlobURL ld (baseURL +:+ "/ffmpeg-core.js") "text/javascript")
    as [core | e].
  2: { destruct Hcase as (_ & -> & ->). split; [reflexivity |].
       eexists _, e. rewrite app_assoc. reflexivity. }
  destruct (toBlobURL ld (baseURL +:+ "/ffmpeg-core.wasm") "application/wasm")
    as [wasm | e].
  2: { destruct Hcase as (_ & -> & ->). split; [reflexivity |].
       eexists _, e. rewrite app_assoc. reflexivity. }
  destruct (load_status (ffmpeg_load ld core wasm)) as [first | e].
  - destruct Hcase as (Hyes & _). congruence.
  - destruct Hcase as (_ & -> & ->). split; [reflexivity |].
    eexists _, e. rewrite !app_assoc. reflexivity.
Qed.

(** X13: [load] stops at the first step that fails: when the first asset cannot
    be fetched the second is not requested and the engine is not started;
    when the second cannot be fetched the engine is not started. *)
Theorem load_stops_at_first_failure p e :
  let core_url := baseURL +:+ "/ffmpeg-core.js" in
  let wasm_url := baseURL +:+ "/ffmpeg-core.wasm" in
  let failed :=
    [LConsoleError "Error cargando FFmpeg" e;
     LSetLogMessage load_failure_message; LSetIsLoading false] in
  (toBlobURL ld core_url "text/javascript" = Thrown e ->
   load_trace (snd (load ld p)) =
   (load_trace p
      ++ [LSetIsLoading true; LOn "log"; LToBlobURL core_url "text/javascript"]
      ++ failed)%list)
  /\ (forall core,
        toBlobURL ld core_url "text/javascript" = Returned core ->
        toBlobURL ld wasm_url "application/wasm" = Thrown e ->
        load_trace (snd (load ld p)) =
        (load_trace p
           ++ [LSetIsLoading true; LOn "log";
               LToBlobURL core_url "text/javascript";
               LToBlobURL wasm_url "application/wasm"]
           ++ failed)%list).
Proof.
  intros core_url wasm_url failed.
  destruct (load_cases p) as (p' & -> & _ & _ & _ & _ & _ & _ & Hcase).
  cbn [snd]. cbv zeta in Hcase. fold core_url wasm_url in Hcase.
  split.
  - intros Hcore. rewrite Hcore in Hcase. now destruct Hcase as (_ & _ & ->).
  - intros core Hcore Hwasm. rewrite Hcore, Hwasm in Hcase.
    now destruct Hcase as (_ & _ & ->).
Qed.

(** X14: When both assets are fetched and the engine starts, [loaded] is set,
    every line the engine logged while starting was mirrored by each
    registered listener, and the message left is the last of these lines
    (the previous message when there was none). *)
Theorem load_success_shows_engine_log p core wasm first :
  toBlobURL ld (baseURL +:+ "/ffmpeg-core.js") "text/javascript"
    = Returned core ->
  toBlobURL ld (baseURL +:+ "/ffmpeg-core.wasm") "application/wasm"
    = Returned wasm ->
  load_status (ffmpeg_load ld core wasm) = Returned first ->
  let p' := snd (load ld p) in
  let r := ffmpeg_load ld core wasm in
  loaded (cells p') = true
  /\ logMessage (cells p') = default (logMessage (cells p)) (last (load_logs r))
  /\ load_trace p' =
     (load_trace p
        ++ [LSetIsLoading true; LOn "log";
            LToBlobURL (baseURL +:+ "/ffmpeg-core.js") "text/javascript";
            LToBlobURL (baseURL +:+ "/ffmpeg-core.wasm") "application/wasm";
            LLoad core wasm]
        ++ mirrored (S (listeners p)) (load_logs r)
        ++ [LSetLoaded true; LSetIsLoading false])%list.
Proof.
  intros Hcore Hwasm Hst.
  destruct (load_cases p) as (p' & -> & _ & _ & _ & _ & _ & _ & Hcase).
  cbn [snd]. cbv zeta in Hcase. rewrite Hcore, Hwasm, Hst in Hcase.
  exact Hcase.
Qed.

End LoadFacts.

(** * Properties of the rendered page *)

Section PageFacts.

Variable env : Env.

Implicit Types (p : Page) (a : Action).

Lemma offers_In (sel : Select) (v : string) :
  offers sel v = true -> In v (map fst (choices sel)).
Proof.
  unfold offers. rewrite existsb_exists. intros (x & Hin & Heq).
  apply String.eqb_eq in Heq. now subst.
Qed.

(** Before the engine is loaded nothing can be done on the page. *)
Lemma dispatch_not_loaded a p :
  loaded (cells p) = false -> dispatch env a p = None.
Proof. intros H. unfold dispatch, render. now rewrite H. Qed.

(** What one action can change. *)
Lemma dispatch_cases a p p' :
  dispatch env a p = Some p' ->
  loaded (cells p) = true
  /\ listeners p' = listeners p
  /\ load_trace p' = load_trace p
  /\ match a with
     | SelectFormat v =>
         In v ["wav"; "flac"; "mp3"] /\ p' = setFormat v p
     | SelectSampleRate v =>
         In v ["44100"; "48000"] /\ p' = setSampleRate v p
     | SelectBitDepth v =>
         In v ["16"; "24"; "32"] /\ format (opts p) <> "mp3"
         /\ p' = setBitDepth v p
     | PickFile f => p' = with_picked f p
     | ClickConvert =>
         isLoading (cells p) = false /\ p' = click_convert env p
     end.
Proof.
  unfold dispatch, render.
  destruct (loaded (cells p)) eqn:Hl; [| discriminate]. cbn -[offers].
  intros Hd. split; [reflexivity |]. revert Hd.
  destruct a as [v | v | v | f |]; cbn -[offers].
  - destruct (offers _ v) eqn:Hv; [| discriminate].
    apply offers_In in Hv. intros [= <-]. auto.
  - destruct (offers _ v) eqn:Hv; [| discriminate].
    apply offers_In in Hv. intros [= <-]. auto.
  - destruct (String.eqb (format (opts p)) "mp3") eqn:Hmp3; [discriminate |].
    cbn -[offers]. destruct (offers _ v) eqn:Hv; [| discriminate].
    apply offers_In in Hv. apply String.eqb_neq in Hmp3. intros [= <-]. auto.
  - intros [= <-]. auto.
  - destruct (isLoading (cells p)) eqn:Hb; [discriminate |].
    intros [= <-]. auto.
Qed.

(** The page keeps offered option values, its listeners, and [loaded]. *)
Lemma dispatch_invariant a p p' :
  dispatch env a p = Some p' ->
  offered_options (opts p) ->
  offered_options (opts p')
  /\ listeners p' = listeners p
  /\ loaded (cells p') = true.
Proof.
  intros Hd (Hf & Hb & Hr).
  destruct (dispatch_cases a p p' Hd) as (Hl & Hn & _ & Ha).
  split; [| split; [exact Hn |]].
  - destruct a; unfold offered_options.
    + destruct Ha as [Hv ->]. now cbn.
    + destruct Ha as [Hv ->]. now cbn.
    + destruct Ha as (Hv & _ & ->). now cbn.
    + subst p'. now cbn.
    + destruct Ha as [_ ->]. now cbn.
  - destruct a.
    + now destruct Ha as [_ ->].
    + now destruct Ha as [_ ->].
    + now destruct Ha as (_ & _ & ->).
    + now subst p'.
    + destruct Ha as [_ ->]. cbn.
      destruct (final_cases env (opts p) (picked p) (cells p)) as (evs & H & _).
      unfold final in H. now rewrite H.
Qed.

Lemma run_invariant (actions : list Action) p p' :
  run env actions p = Some p' ->
  offered_options (opts p) ->
  offered_options (opts p')
  /\ listeners p' = listeners p
  /\ (actions <> [] -> loaded (cells p') = true).
Proof.
  revert p. induction actions as [| a rest IH]; intros p Hrun Hinv.
  - injection Hrun as <-.
    split; [exact Hinv | split; [reflexivity | intros H; now destruct H]].
  - cbn in Hrun. destruct (dispatch env a p) as [p1 |] eqn:Hd; [| discriminate].
    destruct (dispatch_invariant a p p1 Hd Hinv) as (Hinv1 & Hn1 & Hl1).
    destruct (IH p1 Hrun Hinv1) as (Hinv' & Hn' & Hl').
    split; [exact Hinv' |]. split; [congruence |].
    intros _. destruct rest as [| b rest'].
    + injection Hrun as <-. exact Hl1.
    + apply Hl'. discriminate.
Qed.

Lemma mount_invariant (ld : Loader) :
  offered_options (opts (mount ld)) /\ listeners (mount ld) = 1.
Proof.
  unfold mount.
  destruct (load_cases ld first_render) as (p' & -> & Ho & _ & Hn & _).
  cbn [snd]. rewrite Ho, Hn. unfold offered_options. cbn. tauto.
Qed.

(** X15: On every page the user can reach, the three options hold values their
    selectors offer, and exactly one 'log' listener is registered; once an
    action was possible the engine is loaded. *)
Theorem reachable_page_invariant (ld : Loader) (actions : list Action) p :
  run env actions (mount ld) = Some p ->
  offered_options (opts p)
  /\ listeners p = 1
  /\ (actions <> [] -> loaded (cells p) = true).
Proof.
  intros Hrun. destruct (mount_invariant ld) as [Hinv Hn].
  destruct (run_invariant actions (mount ld) p Hrun Hinv) as (H1 & H2 & H3).
  split; [exact H1 |]. split; [congruence | exact H3].
Qed.

(** X16: The command the button would run on a reachable page always has the
    directive of its format: for wav exactly one '-c:a' flag (the fallback
    without codec cannot be reached), for mp3 exactly one '-b:a' flag and no
    '-c:a', for flac neither. *)
Theorem reachable_command_has_its_directive
  (ld : Loader) (actions : list Action) p :
  run env actions (mount ld) = Some p ->
  let o := opts p in
  let toks := tokens (format o) (bitDepth o) (sampleRate o) in
  count_flag "-c:a" toks = (if String.eqb (format o) "wav" then 1 else 0)
  /\ count_flag "-b:a" toks = (if String.eqb (format o) "mp3" then 1 else 0)
  /\ length toks = (if String.eqb (format o) "flac" then 5 else 7).
Proof.
  intros Hrun. destruct (mount_invariant ld) as [Hinv _].
  destruct (run_invariant actions (mount ld) p Hrun Hinv)
    as ((Hf & Hb & Hr) & _).
  cbv zeta. destruct (opts p) as [fmt bd sr]. cbn [format bitDepth sampleRate] in *.
  cbv [In] in Hf, Hb, Hr.
  destruct Hf as [<- | [<- | [<- | []]]];
    destruct Hb as [<- | [<- | [<- | []]]];
    destruct Hr as [<- | [<- | []]]; now vm_compute.
Qed.

(** X17: When [load] has failed the page shows only the placeholder: no control
    is rendered, no action is possible afterwards (in particular no
    conversion), and the failure message, though stored in [logMessage], is
    in no part of what is rendered. *)
Theorem failed_load_blocks_page (ld : Loader) :
  loaded (cells (mount ld)) = false ->
  render (mount ld) = Placeholder "Cargando motor de procesamiento..."
  /\ logMessage (cells (mount ld)) = load_failure_message
  /\ (forall a, dispatch env a (mount ld) = None)
  /\ (forall actions p, run env actions (mount ld) = Some p -> actions = []).
Proof.
  intros Hno. split; [| split; [| split]].
  - unfold render. now rewrite Hno.
  - unfold mount in *.
    destruct (load_cases ld first_render)
      as (p' & Heq & _ & _ & _ & _ & _ & _ & Hcase).
    rewrite Heq in *. cbn [snd] in *. cbv zeta in Hcase.
    destruct (toBlobURL ld _ "text/javascript"); [| tauto].
    destruct (toBlobURL ld _ "application/wasm"); [| tauto].
    destruct (load_status _); [| tauto].
    destruct Hcase as (Hyes & _). congruence.
  - intros a. now apply dispatch_not_loaded.
  - intros [| a rest] p; [reflexivity |]. cbn.
    now rewrite dispatch_not_loaded.
Qed.

(** X18: While the busy flag is raised the button is disabled, and nothing the
    user can still do changes the cells or the storage: if a run left the
    flag raised, no later action lowers it and no conversion starts. *)
Theorem busy_page_is_locked (actions : list Action) p p' :
  isLoading (cells p) = true ->
  run env actions p = Some p' ->
  cells p' = cells p /\ ~ In ClickConvert actions.
Proof.
  revert p. induction actions as [| a rest IH]; intros p Hbusy Hrun.
  - injection Hrun as <-. split; [reflexivity | intros []].
  - cbn in Hrun. destruct (dispatch env a p) as [p1 |] eqn:Hd; [| discriminate].
    destruct (dispatch_cases a p p1 Hd) as (_ & _ & _ & Ha).
    assert (cells p1 = cells p /\ a <> ClickConvert) as [Hc Hne].
    { destruct a.
      - destruct Ha as [_ ->]. now split.
      - destruct Ha as [_ ->]. now split.
      - destruct Ha as (_ & _ & ->). now split.
      - subst p1. now split.
      - destruct Ha as [Hfree _]. congruence. }
    destruct (IH p1) as [Hc' Hnot]; [congruence | exact Hrun |].
    split; [congruence |]. intros [Heq | Hin]; auto.
Qed.

(** X19: A click whose copy of the picked file rejects leaves the page locked:
    the button is rendered disabled with the busy label and marker, and it
    stays so whatever the user does next. *)
Theorem copy_failure_locks_the_page p f e :
  loaded (cells p) = true ->
  isLoading (cells p) = false ->
  picked p = Some f ->
  fetchFile env f = Thrown e ->
  exists p1 form,
    dispatch env ClickConvert p = Some p1
    /\ render p1 = Shown form
    /\ button_disabled form = true
    /\ button_label form = "Procesando Audio..."
    /\ log_marker form = true
    /\ forall actions p', run env actions p1 = Some p' ->
         isLoading (cells p') = true /\ ~ In ClickConvert actions.
Proof.
  intros Hl Hfree Hpick Hfetch.
  assert (dispatch env ClickConvert p = Some (click_convert env p)) as Hd.
  { unfold dispatch, render. rewrite Hl. cbn. now rewrite Hfree. }
  assert (cells (click_convert env p) =
          emit (FetchFile f) (with_isLoading true (emit (SetIsLoading true) (cells p))))
    as Hcells.
  { unfold click_convert. cbn. rewrite Hpick.
    now rewrite (convert_fetch_rejects env (opts p) f (cells p) e Hfetch). }
  eexists (click_convert env p), _. split; [exact Hd |].
  split; [unfold render; rewrite Hcells; cbn; rewrite Hl; reflexivity |].
  cbn. do 3 (split; [reflexivity |]).
  intros actions p' Hrun.
  assert (isLoading (cells (click_convert env p)) = true) as Hbusy
    by now rewrite Hcells.
  revert Hbusy Hrun. generalize (click_convert env p). clear.
  intros q. revert q.
  induction actions as [| a rest IH]; intros q Hbusy Hrun.
  - injection Hrun as <-. split; [exact Hbusy | intros []].
  - cbn in Hrun. destruct (dispatch env a q) as [q1 |] eqn:Hd; [| discriminate].
    destruct (dispatch_cases a q q1 Hd) as (_ & _ & _ & Ha).
    assert (isLoading (cells q1) = true /\ a <> ClickConvert) as [Hb Hne].
    { destruct a.
      - destruct Ha as [_ ->]. now split.
      - destruct Ha as [_ ->]. now split.
      - destruct Ha as (_ & _ & ->). now split.
      - subst q1. now split.
      - destruct Ha as [Hfree _]. congruence. }
    destruct (IH q1 Hb Hrun) as [Hb' Hnot].
    split; [exact Hb' |]. intros [Heq | Hin]; auto.
Qed.

(** X20: Switching to mp3 hides the bit-depth selector but keeps its value: the
    next successful conversion still puts that value in the name of the
    download. *)
Theorem hidden_bitDepth_still_named p f data fs1 code output :
  loaded (cells p) = true ->
  isLoading (cells p) = false ->
  picked p = Some f ->
  fetchFile env f = Returned data ->
  writeFile env "input" data (storage (cells p)) = (Returned tt, fs1) ->
  status (exec env (tokens "mp3" (bitDepth (opts p)) (sampleRate (opts p))) fs1)
    = Returned code ->
  readFile env "output.mp3"
    (storage_after
       (exec env (tokens "mp3" (bitDepth (opts p)) (sampleRate (opts p))) fs1))
    = Returned output ->
  exists p1 p2 form,
    dispatch env (SelectFormat "mp3") p = Some p1
    /\ render p1 = Shown form /\ bitDepth_control form = None
    /\ bitDepth (opts p1) = bitDepth (opts p)
    /\ dispatch env ClickConvert p1 = Some p2
    /\ List.filter is_download
         (drop (length (trace (cells p))) (trace (cells p2))) =
       [Download "audio/mp3" (buffer output)
          ("convertido_" +:+ sampleRate (opts p) +:+ "Hz_"
             +:+ bitDepth (opts p) +:+ "bit.mp3")].
Proof.
  intros Hl Hfree Hpick Hfetch Hwrite Hexec Hread.
  eexists (setFormat "mp3" p), (click_convert env (setFormat "mp3" p)), _.
  split; [unfold dispatch, render; rewrite Hl; reflexivity |].
  split; [unfold render; cbn; rewrite Hl; reflexivity |].
  cbn [bitDepth_control]. do 2 (split; [reflexivity |]).
  split; [unfold dispatch, render; cbn; rewrite Hl, Hfree; reflexivity |].
  unfold click_convert. cbn [cells with_cells setFormat with_opts opts picked].
  rewrite Hpick.
  set (o := {| format := "mp3"; bitDepth := bitDepth (opts p);
               sampleRate := sampleRate (opts p) |}).
  change (drop (length (trace (cells p))) (trace (snd (convert env o (Some f) (cells p)))))
    with (events env o (Some f) (cells p)).
  rewrite (events_cases env o (Some f) (cells p)), Hfetch, Hwrite. cbv zeta.
  change (tokens (format o) (bitDepth o) (sampleRate o))
    with (tokens "mp3" (bitDepth (opts p)) (sampleRate (opts p))).
  change ("output." +:+ format o) with "output.mp3".
  rewrite Hexec, Hread. cbn.
  rewrite ?List.filter_app, ?filter_logs by reflexivity. reflexivity.
Qed.

End PageFacts.

(** * The properties above on concrete runs *)

(** A successful mp3 run on the engine whose [readFile] returns a view:
    the download holds the whole buffer, two bytes more than the file. *)
Lemma download_only_on_success_witness :
  List.filter is_download
    (events engine_view mp3_options (Some sample_file) initial_state) =
  [Download "audio/mp3" ([Byte.xff; Byte.xff] ++ content sample_file)
     "convertido_48000Hz_24bit.mp3"].
Proof.
  destruct (download_only_on_success engine_view mp3_options (Some sample_file)
              initial_state)
    as (f & data & fs1 & code & output & Hf & Hfetch & Hwrite & _ & Hread & Hdl).
  - vm_compute. discriminate.
  - rewrite Hdl. injection Hf as <-.
    vm_compute in Hfetch. injection Hfetch as <-.
    vm_compute in Hwrite. injection Hwrite as <-.
    vm_compute in Hread. injection Hread as <-. reflexivity.
Defined.

(** A run that reaches [exec] on the engine whose run rejects. *)
Lemma exec_only_after_write_witness :
  exists f data fs1,
    fetchFile engine_exec_fails f = Returned data
    /\ writeFile engine_exec_fails "input" data (storage initial_state)
       = (Returned tt, fs1).
Proof.
  destruct (exec_only_after_write engine_exec_fails default_options
              (Some sample_file) initial_state)
    as (f & data & fs1 & rest & _ & Hfetch & Hwrite & _).
  - vm_compute. discriminate.
  - exists f, data, fs1. split; assumption.
Defined.

(** The engine that resolves with exit code 1 and writes no output. *)
Lemma read_failure_is_caught_witness :
  result engine_no_output default_options (Some sample_file) initial_state
    = Returned tt
  /\ logMessage (final engine_no_output default_options (Some sample_file)
                   initial_state) = "Error durante la conversión."
  /\ isLoading (final engine_no_output default_options (Some sample_file)
                  initial_state) = false.
Proof.
  destruct (read_failure_is_caught engine_no_output default_options
              sample_file initial_state (content sample_file)
              (<["input" := content sample_file]> ∅) 1%Z
              (Error "ErrnoError: FS error"))
    as (Hres & Hmsg & Hbusy & _).
  - reflexivity.
  - reflexivity.
  - reflexivity.
  - vm_compute. reflexivity.
  - auto.
Defined.

(** After a successful run the message is the engine's last line. *)
Lemma success_keeps_engine_log_witness :
  logMessage (final engine_ok default_options (Some sample_file) initial_state)
  = "size=       1kB time=00:00:00.00".
Proof.
  apply (success_keeps_engine_log engine_ok default_options sample_file
           initial_state (content sample_file)
           (<["input" := content sample_file]> ∅) 0%Z
           (array_of (content sample_file))).
  - reflexivity.
  - reflexivity.
  - reflexivity.
  - vm_compute. reflexivity.
Defined.

(** The picked file can no longer be read. *)
Lemma copy_rejection_propagates_witness :
  result engine_fetch_fails default_options (Some sample_file) initial_state
    = Thrown (Error "NotFoundError")
  /\ isLoading (final engine_fetch_fails default_options (Some sample_file)
                  initial_state) = true.
Proof.
  destruct (copy_rejection_propagates engine_fetch_fails default_options
              sample_file initial_state (Error "NotFoundError"))
    as (Hres & Hbusy & _).
  - left. reflexivity.
  - auto.
Defined.

(** The bracket on the engine whose run rejects. *)
Lemma busy_bracket_after_copy_witness :
  head (events engine_exec_fails default_options (Some sample_file)
          initial_state) = Some (SetIsLoading true)
  /\ last (events engine_exec_fails default_options (Some sample_file)
             initial_state) = Some (SetIsLoading false).
Proof.
  destruct (busy_bracket_after_copy engine_exec_fails default_options
              sample_file initial_state (content sample_file)
              (<["input" := content sample_file]> ∅))
    as (_ & _ & Hhead & Hlast & _).
  - reflexivity.
  - reflexivity.
  - auto.
Defined.

(** Mounting without network. *)
Lemma load_failure_reported_witness :
  logMessage (cells (mount loader_offline))
  = "Error al cargar el motor de audio. Revisa la consola.".
Proof.
  destruct (load_failure_reported loader_offline first_render) as (Hmsg & _).
  - reflexivity.
  - exact Hmsg.
Defined.

(** Without network only the first asset is requested. *)
Lemma load_stops_at_first_failure_witness :
  load_trace (mount loader_offline) =
  [LSetIsLoading true; LOn "log";
   LToBlobURL (baseURL +:+ "/ffmpeg-core.js") "text/javascript";
   LConsoleError "Error cargando FFmpeg" (Error "TypeError: Failed to fetch");
   LSetLogMessage load_failure_message; LSetIsLoading false].
Proof.
  apply (proj1 (load_stops_at_first_failure loader_offline first_render
                  (Error "TypeError: Failed to fetch"))).
  reflexivity.
Defined.

(** Mounting with both assets fetched and the engine starting. *)
Lemma load_success_shows_engine_log_witness :
  loaded (cells (mount loader_ok)) = true
  /\ logMessage (cells (mount loader_ok)) = "ffmpeg version 5.1.4".
Proof.
  destruct (load_success_shows_engine_log loader_ok first_render
              ("blob:" +:+ baseURL +:+ "/ffmpeg-core.js")
              ("blob:" +:+ baseURL +:+ "/ffmpeg-core.wasm") true)
    as (Hl & Hmsg & _).
  - reflexivity.
  - reflexivity.
  - reflexivity.
  - split; [exact Hl | exact Hmsg].
Defined.

(** Pick a file, choose 24 bit, switch to mp3, convert. *)
Lemma reachable_page_invariant_witness :
  listeners
    (click_convert engine_ok
       (setFormat "mp3"
          (setBitDepth "24" (with_picked (Some sample_file) (mount loader_ok)))))
  = 1.
Proof.
  destruct (reachable_page_invariant engine_ok loader_ok
              [PickFile (Some sample_file); SelectBitDepth "24";
               SelectFormat "mp3"; ClickConvert]
              (click_convert engine_ok
                 (setFormat "mp3"
                    (setBitDepth "24"
                       (with_picked (Some sample_file) (mount loader_ok))))))
    as (_ & Hn & _).
  - vm_compute. reflexivity.
  - exact Hn.
Defined.

(** Choose flac at 32 bit and 48000 Hz: no codec and no bitrate flag. *)
Lemma reachable_command_has_its_directive_witness :
  count_flag "-c:a" (tokens "flac" "32" "48000") = 0
  /\ count_flag "-b:a" (tokens "flac" "32" "48000") = 0
  /\ length (tokens "flac" "32" "48000") = 5.
Proof.
  apply (reachable_command_has_its_directive engine_ok loader_ok
           [SelectBitDepth "32"; SelectFormat "flac"; SelectSampleRate "48000"]
           (setSampleRate "48000"
              (setFormat "flac" (setBitDepth "32" (mount loader_ok))))).
  vm_compute. reflexivity.
Defined.

(** Mounting without network leaves the placeholder. *)
Lemma failed_load_blocks_page_witness :
  render (mount loader_offline) =
  Placeholder "Cargando motor de procesamiento..."
  /\ dispatch engine_ok ClickConvert (mount loader_offline) = None.
Proof.
  destruct (failed_load_blocks_page engine_ok loader_offline)
    as (Hview & _ & Hnone & _).
  - reflexivity.
  - split; [exact Hview | apply Hnone].
Defined.

(** After a click whose copy rejected, later selections leave the cells. *)
Lemma busy_page_is_locked_witness :
  cells
    (with_picked None
       (setFormat "flac"
          (click_convert engine_fetch_fails
             (with_picked (Some sample_file) (mount loader_ok)))))
  = cells
      (click_convert engine_fetch_fails
         (with_picked (Some sample_file) (mount loader_ok))).
Proof.
  apply (busy_page_is_locked engine_fetch_fails
           [SelectFormat "flac"; PickFile None]
           (click_convert engine_fetch_fails
              (with_picked (Some sample_file) (mount loader_ok)))).
  - reflexivity.
  - vm_compute. reflexivity.
Defined.

(** A click on the loaded page when the picked file cannot be read. *)
Lemma copy_failure_locks_the_page_witness :
  exists p1 form,
    dispatch engine_fetch_fails ClickConvert
      (with_picked (Some sample_file) (mount loader_ok)) = Some p1
    /\ render p1 = Shown form
    /\ button_disabled form = true.
Proof.
  destruct (copy_failure_locks_the_page engine_fetch_fails
              (with_picked (Some sample_file) (mount loader_ok))
              sample_file (Error "NotFoundError"))
    as (p1 & form & Hd & Hview & Hdis & _).
  - reflexivity.
  - reflexivity.
  - reflexivity.
  - reflexivity.
  - exists p1, form. auto.
Defined.

(** 24 bit chosen, then mp3: the download is named with 24 bit. *)
Lemma hidden_bitDepth_still_named_witness :
  exists p1 p2,
    dispatch engine_ok (SelectFormat "mp3")
      (with_picked (Some sample_file) (setBitDepth "24" (mount loader_ok)))
      = Some p1
    /\ dispatch engine_ok ClickConvert p1 = Some p2
    /\ List.filter is_download (trace (cells p2)) =
       [Download "audio/mp3" (content sample_file)
          "convertido_44100Hz_24bit.mp3"].
Proof.
  destruct (hidden_bitDepth_still_named engine_ok
              (with_picked (Some sample_file) (setBitDepth "24" (mount loader_ok)))
              sample_file (content sample_file)
              (<["input" := content sample_file]> ∅) 0%Z
              (array_of (content sample_file)))
    as (p1 & p2 & form & Hd1 & _ & _ & _ & Hd2 & Hdl).
  - reflexivity.
  - reflexivity.
  - reflexivity.
  - reflexivity.
  - reflexivity.
  - reflexivity.
  - vm_compute. reflexivity.
  - exists p1, p2. auto.
Defined.
